(** * Spotify proxy worker: the request handlers of [src/index.ts]

    The worker is a set of asynchronous route handlers over a key-value
    namespace ([env.SPOTIFY_DATA]) and one upstream HTTP service.  The
    handlers are embedded as functions in a state-and-exception monad over a
    [world] holding the namespace, the number of random draws consumed and
    the chronological trace of the effects performed.  What the JavaScript
    platform supplies ([JSON.parse], [JSON.stringify], [btoa],
    [encodeURIComponent], [Date], [Math.random], the global [fetch]) is taken
    as a parameter of the development.  A JavaScript string is a [string]:
    a sequence of code units, [String.length] its [length]. *)

From Stdlib Require Import ZArith String Ascii List Lia Bool.
From stdpp Require Import base option strings gmap.

Import ListNotations.
Local Open Scope string_scope.
Local Open Scope Z_scope.

#[local] Set Warnings "-register-all".

(** ** JavaScript values read back from the store *)

(** A value produced by [JSON.parse].  A number is carried as the text that
    ECMAScript's [Number::toString] gives it, which is all the handlers ever
    ask of a number (its truthiness and its rendering in a template
    literal); [0] and [-0] both render as ["0"].  [undefined] is not a JSON
    value: a property read yields an [option json]. *)
Inductive json : Type :=
| JNull
| JBool (b : bool)
| JNum (repr : string)
| JStr (s : string)
| JArr (items : list json)
| JObj (fields : list (string * json)).

Definition nonempty (s : string) : bool := negb (String.eqb s "").

(** ECMAScript [ToBoolean] on a parsed value. *)
Definition truthy (v : json) : bool :=
  match v with
  | JNull => false
  | JBool b => b
  | JNum repr => negb (String.eqb repr "0")
  | JStr s => nonempty s
  | JArr _ => true
  | JObj _ => true
  end.

(** [v !== null]. *)
Definition not_null (v : json) : bool :=
  match v with
  | JNull => false
  | _ => true
  end.

Fixpoint assoc_get {A : Type} (l : list (string * A)) (name : string) : option A :=
  match l with
  | [] => None
  | (k, v) :: rest => if String.eqb k name then Some v else assoc_get rest name
  end.

(** [v.name] for a non-null [v] and a name that no prototype defines (the
    handlers read [client_id], [client_secret] and [access_token]); [None]
    is [undefined]. *)
Definition get_prop (v : json) (name : string) : option json :=
  match v with
  | JObj fields => assoc_get fields name
  | _ => None
  end.

Fixpoint join_with (sep : string) (l : list string) : string :=
  match l with
  | [] => ""
  | [x] => x
  | x :: rest => x +:+ sep +:+ join_with sep rest
  end.

(** ECMAScript [ToString], as a template literal applies it. *)
Fixpoint js_to_string (v : json) : string :=
  match v with
  | JNull => "null"
  | JBool true => "true"
  | JBool false => "false"
  | JNum repr => repr
  | JStr s => s
  | JArr items =>
      join_with ","
        (map (fun x => match x with JNull => "" | _ => js_to_string x end) items)
  | JObj _ => "[object Object]"
  end.

Definition template (v : option json) : string :=
  match v with
  | Some j => js_to_string j
  | None => "undefined"
  end.

(** ** HTTP data *)

(** The incoming request: [request.method], the parts of [new
    URL(request.url)] that the handlers read, and the outcome of
    [request.formData()] ([None] when it rejects).  Form values are strings,
    as the source's [as string] casts take them to be. *)
Record Request : Type := {
  method : string;
  origin : string;
  pathname : string;
  searchParams : list (string * string);
  formData : option (list (string * string))
}.

(** The pages the worker renders; the markup is presentation and a page is
    identified by its template and the values spliced into it. *)
Inductive page : Type :=
| RootPage (setupStatus nextAction nextActionText : string)
| SetupPage
| CredentialsPage (errorMessage : option string) (origin : string)
| OAuthSuccessPage.

Inductive body : Type :=
| BodyNull
| BodyText (s : string)
| BodyPage (p : page).

Record Response : Type := {
  status : Z;
  headers : list (string * string);
  resp_body : body
}.

(** A call of the global [fetch] and what comes back. *)
Record upstream_request : Type := {
  rq_url : string;
  rq_method : string;
  rq_headers : list (string * string);
  rq_body : list (string * string)
}.

Record upstream_response : Type := {
  rs_status : Z;
  rs_statusText : string;
  rs_body : string
}.

(** [response.ok] *)
Definition rs_ok (r : upstream_response) : bool :=
  (200 <=? rs_status r) && (rs_status r <=? 299).

(** ** The key-value namespace *)

(** An entry holds its value and, when it was put with [expirationTtl], the
    absolute time (in seconds) at which the namespace drops it. *)
Record kv_entry : Type := {
  kv_value : string;
  kv_expiration : option Z
}.

Definition kv_lookup (now : Z) (store : gmap string kv_entry) (key : string)
  : option string :=
  match store !! key with
  | Some e =>
      match kv_expiration e with
      | Some t => if t <=? now then None else Some (kv_value e)
      | None => Some (kv_value e)
      end
  | None => None
  end.

Definition kv_insert (now : Z) (store : gmap string kv_entry)
    (key value : string) (ttl : option Z) : gmap string kv_entry :=
  <[key := {| kv_value := value;
              kv_expiration := (fun t => now + t) <$> ttl |}]> store.

(** ** Effects *)

Inductive event : Type :=
| EvKvGet (key : string)
| EvKvPut (key value : string) (ttl : option Z)
| EvKvDelete (key : string)
| EvFetch (req : upstream_request).

Record world : Type := {
  kv : gmap string kv_entry;
  draws : nat;
  trace : list event
}.

Definition log (e : event) (w : world) : world :=
  {| kv := kv w; draws := draws w; trace := trace w ++ [e] |}.

(** The settlement of an [async] function: fulfilled with a value, or
    rejected by an exception thrown on the way. *)
Inductive outcome (A : Type) : Type :=
| Fulfilled (a : A)
| Rejected.
Arguments Fulfilled {A} a.
Arguments Rejected {A}.

Definition M (A : Type) : Type := world -> outcome A * world.

Definition ret {A : Type} (a : A) : M A := fun w => (Fulfilled a, w).

Definition throw {A : Type} : M A := fun w => (Rejected, w).

Definition bind {A B : Type} (c : M A) (k : A -> M B) : M B :=
  fun w =>
    match c w with
    | (Fulfilled a, w') => k a w'
    | (Rejected, w') => (Rejected, w')
    end.

(** [try { body } catch (error) { handler }] around awaited calls. *)
Definition try_catch {A : Type} (body handler : M A) : M A :=
  fun w =>
    match body w with
    | (Fulfilled a, w') => (Fulfilled a, w')
    | (Rejected, w') => handler w'
    end.

Notation "'let*' x ':=' c 'in' k" := (bind c (fun x => k))
  (at level 10, x pattern, c at level 100, k at level 200).

Definition of_option {A : Type} (o : option A) : M A :=
  match o with
  | Some a => ret a
  | None => throw
  end.

(** ** The worker *)

Definition corsHeaders : list (string * string) :=
  [ ("Access-Control-Allow-Origin", "*");
    ("Access-Control-Allow-Methods", "GET, POST, PUT, DELETE, OPTIONS");
    ("Access-Control-Allow-Headers", "Content-Type, Authorization") ].

Definition lower (c : ascii) : ascii :=
  let n := nat_of_ascii c in
  if ((65 <=? n) && (n <=? 90))%nat then ascii_of_nat (n + 32) else c.

Fixpoint lowercase (s : string) : string :=
  match s with
  | EmptyString => EmptyString
  | String c rest => String (lower c) (lowercase rest)
  end.

(** [headers.has(name)]: header names compare without regard to case;
    [name] is given in lower case. *)
Definition has_header (hs : list (string * string)) (name : string) : bool :=
  existsb (fun h => String.eqb (lowercase (fst h)) name) hs.

(** The header that the constructor gives a body passed as a string when the
    headers name no content type. *)
Definition default_content_type : string * string :=
  ("content-type", "text/plain;charset=UTF-8").

(** The response that [new Response(body, { status, headers })] constructs
    when it does not throw; the status defaults to 200.  Every body of the
    worker other than [null] is a string. *)
Definition new_Response (b : body) (st : Z) (hs : list (string * string))
  : Response :=
  {| status := st;
     headers :=
       match b with
       | BodyNull => hs
       | _ =>
           if has_header hs "content-type" then hs
           else (hs ++ [default_content_type])%list
       end;
     resp_body := b |}.

(** The statuses that allow no body. *)
Definition null_body_status (st : Z) : bool :=
  (st =? 101) || (st =? 103) || (st =? 204) || (st =? 205) || (st =? 304).

(** The constructor accepts a status from 200 to 599 (it throws a
    [RangeError] otherwise) and, with a body, one that allows a body (it
    throws a [TypeError] otherwise). *)
Definition Response_init_ok (b : body) (st : Z) : bool :=
  (200 <=? st) && (st <=? 599)
  && match b with
     | BodyNull => true
     | _ => negb (null_body_status st)
     end.

(** The call [new Response(body, { status, headers })]. *)
Definition Response_new (b : body) (st : Z) (hs : list (string * string))
  : M Response :=
  if Response_init_ok b st then ret (new_Response b st hs) else throw.

(** [Response.redirect(url, status)] for a [url] in serialized form: the
    platform parses the string and puts its serialization in [Location],
    which leaves a string unchanged when it is the [href] of a URL object
    (as in the redirects to [/credentials] and [/setup]) or the
    authorization URL of a client identifier made of letters and digits. *)
Definition Response_redirect (url : string) (st : Z) : Response :=
  {| status := st; headers := [("Location", url)]; resp_body := BodyNull |}.

(** [params.get(name)]: the first value under [name], or [null]. *)
Definition params_get (params : list (string * string)) (name : string)
  : option string :=
  assoc_get params name.

(** A string-or-null in a condition: [Some s] exactly when it is truthy. *)
Definition if_truthy (o : option string) : option string :=
  match o with
  | Some s => if nonempty s then Some s else None
  | None => None
  end.

(** [s.charAt(i)]: the empty string out of range. *)
Definition charAt (s : string) (i : nat) : string :=
  match String.get i s with
  | Some c => String c EmptyString
  | None => ""
  end.

Definition is_alnum (c : ascii) : bool :=
  let n := nat_of_ascii c in
  ((97 <=? n) && (n <=? 122) || (65 <=? n) && (n <=? 90)
   || (48 <=? n) && (n <=? 57))%nat.

Fixpoint all_chars (p : ascii -> bool) (s : string) : bool :=
  match s with
  | EmptyString => true
  | String c rest => p c && all_chars p rest
  end.

(** [s.match(/^[a-zA-Z0-9]+$/)] is not null. *)
Definition matches_alnum (s : string) : bool :=
  nonempty s && all_chars is_alnum s.

Definition charset : string :=
  "ABCDEFGHIJKLMNOPQRSTUVWXYZabcdefghijklmnopqrstuvwxyz0123456789".

(** The key of a state marker: the template [oauth_state_${state}]. *)
Definition marker_key (state : string) : string := "oauth_state_" +:+ state.

Definition scope : string :=
  "user-read-currently-playing user-read-recently-played user-read-playback-state".

(** ** The specification's setup states *)
Module Spec.

(** The three setup states of the specification (section 4.1). *)
Inductive SetupStatus : Type :=
| NOT_STARTED
| CREDENTIALS_ONLY
| COMPLETE.

(** The table of section 4.1, row by row: no credentials; credentials and
    no tokens; both. *)
Definition status (credentials_present tokens_present : bool) : SetupStatus :=
  match credentials_present, tokens_present with
  | false, _ => NOT_STARTED
  | true, false => CREDENTIALS_ONLY
  | true, true => COMPLETE
  end.

(** How the landing page shows a state: its label, the next action and the
    text of the button. *)
Definition root_view (s : SetupStatus) : string * string * string :=
  match s with
  | NOT_STARTED => ("not_started", "/credentials", "Setup Credentials")
  | CREDENTIALS_ONLY =>
      ("credentials_only", "/setup", "Connect Spotify Account")
  | COMPLETE => ("complete", "/now-playing", "View Now Playing")
  end.

(** How the health report shows a state: [setup_complete] and [next_step]. *)
Definition health_view (s : SetupStatus) : bool * string :=
  match s with
  | NOT_STARTED => (false, "Configure Spotify credentials at /credentials")
  | CREDENTIALS_ONLY => (false, "Complete OAuth setup at /setup")
  | COMPLETE => (true, "Ready to use API endpoints")
  end.

(** The value of a string of decimal digits. *)
Fixpoint decimal_digits (s : string) (acc : Z) : option Z :=
  match s with
  | EmptyString => Some acc
  | String c rest =>
      let n := nat_of_ascii c in
      if ((48 <=? n) && (n <=? 57))%nat then
        decimal_digits rest (10 * acc + Z.of_nat (n - 48))
      else None
  end.

(** Section 3 lists [expires_in] among the fields of a token payload: the
    lifetime, in seconds, that the payload declares. *)
Definition declared_expiry (data : json) : option Z :=
  match get_prop data "expires_in" with
  | Some (JNum repr) => if nonempty repr then decimal_digits repr 0 else None
  | _ => None
  end.

(** Section 4.4, on success: the Tokens record is stored with a
    time-to-live bound to the declared expiry, that is, the entry lapses
    that many seconds after it was written. *)
Definition ttl_bound_to_declared_expiry
    (now : Z) (data : json) (e : kv_entry) : Prop :=
  exists seconds : Z,
    declared_expiry data = Some seconds
    /\ kv_expiration e = Some (now + seconds).

End Spec.

(** ** A sample deployment

    Concrete platform functions, worlds and requests on which the statements
    below are instantiated.  The platform functions agree with the real ones
    on the arguments the handlers pass them here (compact output, strings
    that need no escaping) and are not meant beyond that. *)
Module Sample.

Definition dq : string := String (ascii_of_nat 34) EmptyString.

Definition quoted (s : string) : string := dq +:+ s +:+ dq.

Fixpoint compact (j : json) : string :=
  match j with
  | JNull => "null"
  | JBool true => "true"
  | JBool false => "false"
  | JNum repr => repr
  | JStr s => quoted s
  | JArr items => "[" +:+ join_with "," (map compact items) +:+ "]"
  | JObj fields =>
      "{" +:+ join_with ","
                (map (fun kv => quoted (fst kv) +:+ ":" +:+ compact (snd kv))
                   fields)
      +:+ "}"
  end.

Definition now : Z := 1000.

Definition Date_toISOString (t : Z) : string := "1970-01-01T00:16:40.000Z".

Definition client_id : string := "0123456789abcdef0123456789abcdef".

Definition credentials : json :=
  JObj [ ("client_id", JStr client_id);
         ("client_secret", JStr "s3cret");
         ("created_at", JStr "1970-01-01T00:16:40.000Z") ].

(** A token payload that declares a lifetime of 1800 seconds. *)
Definition token_payload : json :=
  JObj [ ("access_token", JStr "BQDexample");
         ("token_type", JStr "Bearer");
         ("scope", JStr scope);
         ("expires_in", JNum "1800");
         ("refresh_token", JStr "AQDexample") ].

Definition JSON_stringify (value : json) (space : nat) : string :=
  compact value.

Definition JSON_parse (text : string) : option json :=
  if String.eqb text (compact credentials) then Some credentials
  else if String.eqb text (compact token_payload) then Some token_payload
  else None.

Definition btoa (s : string) : option string :=
  if String.eqb s (client_id +:+ ":s3cret") then
    Some "MDEyMzQ1Njc4OWFiY2RlZjAxMjM0NTY3ODlhYmNkZWY6czNjcmV0"
  else None.

Definition encodeURIComponent (s : string) : string :=
  if String.eqb s scope then
    "user-read-currently-playing%20user-read-recently-played%20user-read-playback-state"
  else if String.eqb s "https://proxy.example.workers.dev/callback" then
    "https%3A%2F%2Fproxy.example.workers.dev%2Fcallback"
  else s.

Definition Math_random_floor (n i : nat) : nat := ((7 * i + 3) mod n)%nat.

Definition ENVIRONMENT : string := "production".

(** An upstream that grants every token exchange. *)
Definition upstream_granting (req : upstream_request)
  : option upstream_response :=
  if String.eqb (rq_url req) "https://accounts.spotify.com/api/token" then
    Some {| rs_status := 200; rs_statusText := "OK";
            rs_body := compact token_payload |}
  else None.

(** An upstream that refuses every token exchange. *)
Definition upstream_refusing (req : upstream_request)
  : option upstream_response :=
  if String.eqb (rq_url req) "https://accounts.spotify.com/api/token" then
    Some {| rs_status := 400; rs_statusText := "Bad Request";
            rs_body := "" |}
  else None.

(** An upstream with nothing playing. *)
Definition upstream_idle (req : upstream_request)
  : option upstream_response :=
  Some {| rs_status := 204; rs_statusText := "No Content"; rs_body := "" |}.

Definition world_of (store : gmap string kv_entry) : world :=
  {| kv := store; draws := 0; trace := [] |}.

Definition fresh : world := world_of ∅.

Definition credentials_entry : kv_entry :=
  {| kv_value := compact credentials; kv_expiration := None |}.

Definition configured : world :=
  world_of {[ "spotify_credentials" := credentials_entry ]}.

Definition state : string := "DKRYfmt07ELSZgnu".

(** Credentials and a state marker that lives until 1300. *)
Definition pending : world :=
  world_of
    (<[ marker_key state :=
          {| kv_value := "pending"; kv_expiration := Some 1300 |} ]>
       {[ "spotify_credentials" := credentials_entry ]}).

(** A state marker without the credentials. *)
Definition pending_only : world :=
  world_of
    {[ marker_key state :=
         {| kv_value := "pending"; kv_expiration := Some 1300 |} ]}.

(** Credentials and a state marker that lapsed at 900. *)
Definition lapsed : world :=
  world_of
    (<[ marker_key state :=
          {| kv_value := "pending"; kv_expiration := Some 900 |} ]>
       {[ "spotify_credentials" := credentials_entry ]}).

Definition connected : world :=
  world_of
    (<[ "spotify_tokens" :=
          {| kv_value := compact token_payload;
             kv_expiration := Some 4000 |} ]>
       {[ "spotify_credentials" := credentials_entry ]}).

Definition request_to (verb path : string) (query : list (string * string))
    (form : option (list (string * string))) : Request :=
  {| method := verb; origin := "https://proxy.example.workers.dev";
     pathname := path; searchParams := query; formData := form |}.

Definition callback : Request :=
  request_to "GET" "/callback" [("code", "AQBcode"); ("state", state)] None.

Definition callback_denied : Request :=
  request_to "GET" "/callback" [("error", "access_denied"); ("state", state)]
    None.

Definition short_submission : Request :=
  request_to "POST" "/credentials" []
    (Some [("client_id", "abc123"); ("client_secret", "s3cret")]).

End Sample.

Section Worker.

(** The clock, read once per request. *)
Variable now : Z.
(** [new Date(now).toISOString()] *)
Variable Date_toISOString : Z -> string.
(** [JSON.parse]; [None] when it throws a [SyntaxError]. *)
Variable JSON_parse : string -> option json.
(** [JSON.stringify(value, null, space)]; [space] is 0 when omitted. *)
Variable JSON_stringify : json -> nat -> string.
(** [btoa]; [None] when it throws on a character above U+00FF. *)
Variable btoa : string -> option string.
Variable encodeURIComponent : string -> string.
(** The global [fetch]; [None] when the call rejects. *)
Variable upstream : upstream_request -> option upstream_response.
(** The value of [Math.floor(Math.random() * n)] at the i-th draw. *)
Variable Math_random_floor : nat -> nat -> nat.
(** [env.ENVIRONMENT] *)
Variable ENVIRONMENT : string.

(** *** [env.SPOTIFY_DATA] *)

Definition kv_get (key : string) : M (option string) :=
  fun w => (Fulfilled (kv_lookup now (kv w) key), log (EvKvGet key) w).

Definition kv_put (key value : string) (ttl : option Z) : M unit :=
  fun w =>
    (Fulfilled tt,
     log (EvKvPut key value ttl)
       {| kv := kv_insert now (kv w) key value ttl;
          draws := draws w; trace := trace w |}).

Definition kv_delete (key : string) : M unit :=
  fun w =>
    (Fulfilled tt,
     log (EvKvDelete key)
       {| kv := delete key (kv w); draws := draws w; trace := trace w |}).

Definition global_fetch (req : upstream_request) : M upstream_response :=
  fun w =>
    match upstream req with
    | Some r => (Fulfilled r, log (EvFetch req) w)
    | None => (Rejected, log (EvFetch req) w)
    end.

Definition random_floor (n : nat) : M nat :=
  fun w =>
    (Fulfilled (Math_random_floor n (draws w)),
     {| kv := kv w; draws := S (draws w); trace := trace w |}).

(** *** Utility functions *)

Fixpoint generateRandomString_loop (remaining : nat) (result : string)
  : M string :=
  match remaining with
  | O => ret result
  | S remaining' =>
      let* i := random_floor (String.length charset) in
      generateRandomString_loop remaining' (result +:+ charAt charset i)
  end.

Definition generateRandomString (length : nat) : M string :=
  generateRandomString_loop length "".

(** [json ? JSON.parse(json) : null], shared by the two getters. *)
Definition parse_stored (stored : option string) : M json :=
  match if_truthy stored with
  | Some text => of_option (JSON_parse text)
  | None => ret JNull
  end.

Definition getStoredCredentials : M json :=
  let* credentialsJson := kv_get "spotify_credentials" in
  parse_stored credentialsJson.

Definition getStoredTokens : M json :=
  let* tokensJson := kv_get "spotify_tokens" in
  parse_stored tokensJson.

(** The request that [callSpotifyAPI] sends. *)
Definition api_request (endpoint : string) (accessToken : option json)
  : upstream_request :=
  {| rq_url := "https://api.spotify.com" +:+ endpoint;
     rq_method := "GET";
     rq_headers :=
       [ ("Authorization", "Bearer " +:+ template accessToken);
         ("Content-Type", "application/json") ];
     rq_body := [] |}.

Definition callSpotifyAPI (endpoint : string) (accessToken : option json)
  : M upstream_response :=
  global_fetch (api_request endpoint accessToken).

(** The request that [exchangeCodeForTokens] sends to the token endpoint. *)
Definition token_request (basic code redirectUri : string) : upstream_request :=
  {| rq_url := "https://accounts.spotify.com/api/token";
     rq_method := "POST";
     rq_headers :=
       [ ("Content-Type", "application/x-www-form-urlencoded");
         ("Authorization", "Basic " +:+ basic) ];
     rq_body :=
       [ ("grant_type", "authorization_code");
         ("code", code);
         ("redirect_uri", redirectUri) ] |}.

(** The [Authorization] payload before [btoa]. *)
Definition basic_payload (credentials : json) : string :=
  template (get_prop credentials "client_id") +:+ ":"
  +:+ template (get_prop credentials "client_secret").

(** The result object of [exchangeCodeForTokens]. *)
Inductive exchange_result : Type :=
| ExchangeFailure (error : string)
| ExchangeSuccess (data : json).

Definition exchangeCodeForTokens (code : string) (callbackOrigin : string)
  : M exchange_result :=
  let redirectUri := callbackOrigin +:+ "/callback" in
  let* credentials := getStoredCredentials in
  if negb (truthy credentials) then
    ret (ExchangeFailure
           "No Spotify credentials found. Please complete setup first.")
  else
    let* basic := of_option (btoa (basic_payload credentials)) in
    let* response := global_fetch (token_request basic code redirectUri) in
    if negb (rs_ok response) then
      ret (ExchangeFailure
             ("Token exchange failed: " +:+ rs_statusText response))
    else
      let* data := of_option (JSON_parse (rs_body response)) in
      ret (ExchangeSuccess data).

Definition getSetupHTML : page := SetupPage.

Definition getCredentialsHTML (errorMessage : option string)
    (requestUrl : option Request) : page :=
  let origin :=
    match requestUrl with
    | Some url => origin url
    | None => "https://your-worker.workers.dev"
    end in
  CredentialsPage (if_truthy errorMessage) origin.

Definition html_headers : list (string * string) :=
  ("Content-Type", "text/html") :: corsHeaders.

Definition json_headers : list (string * string) :=
  ("Content-Type", "application/json") :: corsHeaders.

(** *** Route handlers *)

(** The three [let]s of [handleRoot] after its [if] nest, as a function of
    the two conditions tested. *)
Definition root_status (credentials_present tokens_present : bool)
  : string * string * string :=
  if credentials_present then
    if tokens_present then
      ("complete", "/now-playing", "View Now Playing")
    else
      ("credentials_only", "/setup", "Connect Spotify Account")
  else
    ("not_started", "/credentials", "Setup Credentials").

Definition handleRoot (request : Request) : M Response :=
  let* storedCredentials := getStoredCredentials in
  let* storedTokens := getStoredTokens in
  let '(setupStatus, nextAction, nextActionText) :=
    root_status (truthy storedCredentials) (truthy storedTokens) in
  Response_new
    (BodyPage (RootPage setupStatus nextAction nextActionText))
    200 html_headers.

Definition handleSetup (request : Request) : M Response :=
  let* storedCredentials := getStoredCredentials in
  if negb (truthy storedCredentials) then
    ret (Response_redirect (origin request +:+ "/credentials") 302)
  else if String.eqb (method request) "POST" then
    let redirectUri := origin request +:+ "/callback" in
    let* state := generateRandomString 16 in
    let* _ := kv_put (marker_key state) "pending" (Some 600) in
    let authUrl :=
      "https://accounts.spotify.com/authorize?"
      +:+ "response_type=code&"
      +:+ "client_id=" +:+ template (get_prop storedCredentials "client_id")
      +:+ "&"
      +:+ "scope=" +:+ encodeURIComponent scope +:+ "&"
      +:+ "redirect_uri=" +:+ encodeURIComponent redirectUri +:+ "&"
      +:+ "state=" +:+ state in
    ret (Response_redirect authUrl 302)
  else
    Response_new (BodyPage getSetupHTML) 200 html_headers.

Definition handleCredentials (request : Request) : M Response :=
  if String.eqb (method request) "POST" then
    try_catch
      (let* form := of_option (formData request) in
       let clientId := params_get form "client_id" in
       let clientSecret := params_get form "client_secret" in
       match if_truthy clientId, if_truthy clientSecret with
       | Some clientId, Some clientSecret =>
           if (String.length clientId <? 30)%nat
              || negb (matches_alnum clientId)
           then
             Response_new
               (BodyPage
                  (getCredentialsHTML
                     (Some "Invalid Client ID format. Please check your Spotify app credentials.")
                     (Some request)))
               400 html_headers
           else
             let credentials :=
               JObj [ ("client_id", JStr clientId);
                      ("client_secret", JStr clientSecret);
                      ("created_at", JStr (Date_toISOString now)) ] in
             let* _ :=
               kv_put "spotify_credentials"
                 (JSON_stringify credentials 0) None in
             ret (Response_redirect (origin request +:+ "/setup") 302)
       | _, _ =>
           Response_new
             (BodyPage
                (getCredentialsHTML
                   (Some "Please provide both Client ID and Client Secret")
                   (Some request)))
             400 html_headers
       end)
      (Response_new
         (BodyPage
            (getCredentialsHTML
               (Some "Error processing credentials. Please try again.")
               (Some request)))
         500 html_headers)
  else
    Response_new
      (BodyPage (getCredentialsHTML None (Some request)))
      200 html_headers.

Definition handleCallback (request : Request) : M Response :=
  let code := params_get (searchParams request) "code" in
  let state := params_get (searchParams request) "state" in
  let error := params_get (searchParams request) "error" in
  match if_truthy error with
  | Some error =>
      Response_new (BodyText ("OAuth Error: " +:+ error)) 400 []
  | None =>
      match if_truthy code, if_truthy state with
      | Some code, Some state =>
          let* storedState := kv_get (marker_key state) in
          match if_truthy storedState with
          | None =>
              Response_new
                (BodyText "Invalid or expired state parameter") 400 []
          | Some _ =>
              let* tokenResponse :=
                exchangeCodeForTokens code (origin request) in
              match tokenResponse with
              | ExchangeFailure error =>
                  Response_new
                    (BodyText ("Token exchange failed: " +:+ error))
                    400 []
              | ExchangeSuccess data =>
                  let* _ :=
                    kv_put "spotify_tokens" (JSON_stringify data 0)
                      (Some 3600) in
                  let* _ := kv_delete (marker_key state) in
                  Response_new (BodyPage OAuthSuccessPage)
                         200 html_headers
              end
          end
      | _, _ =>
          Response_new
            (BodyText "Missing authorization code or state") 400 []
      end
  end.

(** The 401 of the two data routes. *)
Definition no_tokens_response : Response :=
  new_Response
    (BodyText
       (JSON_stringify
          (JObj [ ("error",
                   JStr "No valid tokens found. Please complete OAuth setup first.") ])
          0))
    401 json_headers.

Definition handleNowPlaying (request : Request) : M Response :=
  let* tokens := getStoredTokens in
  if negb (truthy tokens) then
    Response_new
      (BodyText
         (JSON_stringify
            (JObj [ ("error",
                     JStr "No valid tokens found. Please complete OAuth setup first.") ])
            0))
      401 json_headers
  else
    let* spotifyResponse :=
      callSpotifyAPI "/v1/me/player/currently-playing"
        (get_prop tokens "access_token") in
    if rs_status spotifyResponse =? 204 then
      Response_new
        (BodyText
           (JSON_stringify
              (JObj [ ("playing", JBool false);
                      ("message", JStr "No track currently playing") ])
              0))
        200 json_headers
    else if negb (rs_ok spotifyResponse) then
      Response_new
        (BodyText
           (JSON_stringify
              (JObj [ ("error", JStr "Failed to fetch current track") ])
              0))
        (rs_status spotifyResponse) json_headers
    else
      let* data := of_option (JSON_parse (rs_body spotifyResponse)) in
      Response_new (BodyText (JSON_stringify data 0)) 200 json_headers.

Definition handleRecent (request : Request) : M Response :=
  let* tokens := getStoredTokens in
  if negb (truthy tokens) then
    Response_new
      (BodyText
         (JSON_stringify
            (JObj [ ("error",
                     JStr "No valid tokens found. Please complete OAuth setup first.") ])
            0))
      401 json_headers
  else
    let* spotifyResponse :=
      callSpotifyAPI "/v1/me/player/recently-played?limit=10"
        (get_prop tokens "access_token") in
    if negb (rs_ok spotifyResponse) then
      Response_new
        (BodyText
           (JSON_stringify
              (JObj [ ("error", JStr "Failed to fetch recent tracks") ])
              0))
        (rs_status spotifyResponse) json_headers
    else
      let* data := of_option (JSON_parse (rs_body spotifyResponse)) in
      Response_new (BodyText (JSON_stringify data 0)) 200 json_headers.

(** The [next_step] field of the health report. *)
Definition health_next_step (hasValidCredentials hasValidTokens : bool)
  : string :=
  if negb hasValidCredentials then
    "Configure Spotify credentials at /credentials"
  else if negb hasValidTokens then
    "Complete OAuth setup at /setup"
  else
    "Ready to use API endpoints".

Definition health_object (hasValidCredentials hasValidTokens : bool) : json :=
  JObj
    [ ("status", JStr "healthy");
      ("timestamp", JStr (Date_toISOString now));
      ("environment",
       JStr (if nonempty ENVIRONMENT then ENVIRONMENT else "unknown"));
      ("credentials_configured", JBool hasValidCredentials);
      ("oauth_configured", JBool hasValidTokens);
      ("setup_complete", JBool (hasValidCredentials && hasValidTokens));
      ("next_step",
       JStr (health_next_step hasValidCredentials hasValidTokens));
      ("endpoints",
       JObj [ ("home", JStr "/");
              ("credentials", JStr "/credentials");
              ("setup", JStr "/setup");
              ("callback", JStr "/callback");
              ("now_playing", JStr "/now-playing");
              ("recent", JStr "/recent");
              ("health", JStr "/health") ]) ].

Definition handleHealth (request : Request) : M Response :=
  let* credentials := getStoredCredentials in
  let* tokens := getStoredTokens in
  let hasValidCredentials := not_null credentials in
  let hasValidTokens := not_null tokens in
  let health := health_object hasValidCredentials hasValidTokens in
  Response_new (BodyText (JSON_stringify health 2)) 200 json_headers.

(** *** The dispatcher *)

(** The handlers are [async] and each [case] returns the handler's promise
    without awaiting it, so the [try] block has already been left when a
    handler rejects: the [catch] clause with its 500 response is never
    entered and the rejection is the settlement of [fetch] itself. *)
Definition fetch (request : Request) : M Response :=
  if String.eqb (method request) "OPTIONS" then
    Response_new BodyNull 200 corsHeaders
  else if String.eqb (pathname request) "/" then handleRoot request
  else if String.eqb (pathname request) "/setup" then handleSetup request
  else if String.eqb (pathname request) "/credentials" then
    handleCredentials request
  else if String.eqb (pathname request) "/callback" then
    handleCallback request
  else if String.eqb (pathname request) "/now-playing" then
    handleNowPlaying request
  else if String.eqb (pathname request) "/recent" then handleRecent request
  else if String.eqb (pathname request) "/health" then handleHealth request
  else Response_new (BodyText "Not Found") 404 corsHeaders.

(** *** What the handlers see of the store *)

(** The value that [getStoredCredentials] and [getStoredTokens] produce for
    the record under [key]: [Some JNull] when the namespace has nothing (or
    an empty string) there, [None] when [JSON.parse] throws. *)
Definition stored_value (key : string) (w : world) : option json :=
  match if_truthy (kv_lookup now (kv w) key) with
  | Some text => JSON_parse text
  | None => Some JNull
  end.

Definition is_fetch (e : event) : bool :=
  match e with
  | EvFetch _ => true
  | _ => false
  end.

Definition is_put (e : event) : bool :=
  match e with
  | EvKvPut _ _ _ => true
  | _ => false
  end.

Definition is_get_of (key : string) (e : event) : bool :=
  match e with
  | EvKvGet k => String.eqb k key
  | _ => false
  end.

Definition is_delete_of (key : string) (e : event) : bool :=
  match e with
  | EvKvDelete k => String.eqb k key
  | _ => false
  end.

Fixpoint count (p : event -> bool) (l : list event) : nat :=
  match l with
  | [] => 0%nat
  | e :: rest => ((if p e then 1 else 0) + count p rest)%nat
  end.

(** The effects performed between two worlds, oldest first. *)
Definition events_since (w w' : world) : list event :=
  drop (List.length (trace w)) (trace w').

(** The authorization URL that [handleSetup] redirects to. *)
Definition authorize_url (client origin state : string) : string :=
  "https://accounts.spotify.com/authorize?"
  +:+ "response_type=code&"
  +:+ "client_id=" +:+ client +:+ "&"
  +:+ "scope=" +:+ encodeURIComponent scope +:+ "&"
  +:+ "redirect_uri=" +:+ encodeURIComponent (origin +:+ "/callback") +:+ "&"
  +:+ "state=" +:+ state.

(** ** Properties *)

Lemma bind_run {A B : Type} (c : M A) (k : A -> M B) (w w' : world) (a : A) :
  c w = (Fulfilled a, w') -> bind c k w = k a w'.
Proof. intros H. unfold bind. now rewrite H. Qed.

Lemma bind_rejected {A B : Type} (c : M A) (k : A -> M B) (w w' : world) :
  c w = (Rejected, w') -> bind c k w = (Rejected, w').
Proof. intros H. unfold bind. now rewrite H. Qed.

Lemma stored_run (key : string) (w : world) :
  bind (kv_get key) parse_stored w =
  (match stored_value key w with
   | Some v => Fulfilled v
   | None => Rejected
   end, log (EvKvGet key) w).
Proof.
  unfold bind, kv_get, parse_stored, stored_value.
  destruct (if_truthy (kv_lookup now (kv w) key)) as [text|]; [|reflexivity].
  unfold of_option. now destruct (JSON_parse text).
Qed.

Lemma getStoredCredentials_run (w : world) (v : json) :
  stored_value "spotify_credentials" w = Some v ->
  getStoredCredentials w = (Fulfilled v, log (EvKvGet "spotify_credentials") w).
Proof. intros H. unfold getStoredCredentials. now rewrite stored_run, H. Qed.

Lemma getStoredTokens_run (w : world) (v : json) :
  stored_value "spotify_tokens" w = Some v ->
  getStoredTokens w = (Fulfilled v, log (EvKvGet "spotify_tokens") w).
Proof. intros H. unfold getStoredTokens. now rewrite stored_run, H. Qed.

Lemma stored_value_absent (key : string) (w : world) :
  kv_lookup now (kv w) key = None -> stored_value key w = Some JNull.
Proof. intros H. unfold stored_value. now rewrite H. Qed.

Lemma stored_value_log (key : string) (e : event) (w : world) :
  stored_value key (log e w) = stored_value key w.
Proof. reflexivity. Qed.

Lemma events_since_app (w w' : world) (l : list event) :
  trace w' = (trace w ++ l)%list -> events_since w w' = l.
Proof. intros H. unfold events_since. rewrite H. apply drop_app_length. Qed.

Lemma events_since_refl (w : world) : events_since w w = [].
Proof. apply events_since_app. now rewrite app_nil_r. Qed.

(** C7. With no Tokens record in the namespace, the now-playing and the
    recent handlers both answer 401 with the JSON error object that tells the
    caller to complete the OAuth setup, and the only effect performed is the
    read of the Tokens key: no upstream call. *)
Theorem data_routes_without_tokens (request : Request) (w : world) :
  kv_lookup now (kv w) "spotify_tokens" = None ->
  exists w' : world,
    handleNowPlaying request w = (Fulfilled no_tokens_response, w')
    /\ handleRecent request w = (Fulfilled no_tokens_response, w')
    /\ status no_tokens_response = 401
    /\ resp_body no_tokens_response =
         BodyText
           (JSON_stringify
              (JObj [ ("error",
                       JStr "No valid tokens found. Please complete OAuth setup first.") ])
              0)
    /\ events_since w w' = [EvKvGet "spotify_tokens"]
    /\ count is_fetch (events_since w w') = 0%nat
    /\ kv w' = kv w.
Proof.
  intros Habsent.
  pose proof (getStoredTokens_run w JNull (stored_value_absent _ _ Habsent)) as Hget.
  exists (log (EvKvGet "spotify_tokens") w).
  rewrite (events_since_app w (log (EvKvGet "spotify_tokens") w)
             [EvKvGet "spotify_tokens"] eq_refl).
  repeat split.
  - unfold handleNowPlaying. now rewrite (bind_run _ _ _ _ _ Hget).
  - unfold handleRecent. now rewrite (bind_run _ _ _ _ _ Hget).
Qed.

(** C8. With a Tokens record stored (one that parses to a truthy value),
    when the upstream answers the currently-playing call with status 204 the
    handler answers 200 with the JSON object whose [playing] field is
    [false]. *)
Theorem now_playing_normalizes_204
    (request : Request) (w : world) (tokens : json) (r : upstream_response) :
  stored_value "spotify_tokens" w = Some tokens ->
  truthy tokens = true ->
  upstream (api_request "/v1/me/player/currently-playing"
              (get_prop tokens "access_token")) = Some r ->
  rs_status r = 204 ->
  exists (response : Response) (w' : world),
    handleNowPlaying request w = (Fulfilled response, w')
    /\ status response = 200
    /\ resp_body response =
         BodyText
           (JSON_stringify
              (JObj [ ("playing", JBool false);
                      ("message", JStr "No track currently playing") ])
              0)
    /\ get_prop
         (JObj [ ("playing", JBool false);
                 ("message", JStr "No track currently playing") ])
         "playing" = Some (JBool false)
    /\ headers response = json_headers.
Proof.
  intros Hstored Htruthy Hup H204.
  eexists _, _. split.
  - unfold handleNowPlaying.
    rewrite (bind_run _ _ _ _ _ (getStoredTokens_run w tokens Hstored)).
    rewrite Htruthy. simpl negb. cbv iota.
    unfold callSpotifyAPI, bind, global_fetch. rewrite Hup, H204.
    reflexivity.
  - repeat split.
Qed.

(** *** The callback *)

Lemma marker_key_not_tokens (state : string) :
  marker_key state <> "spotify_tokens".
Proof. unfold marker_key. simpl. discriminate. Qed.

Lemma marker_key_not_credentials (state : string) :
  marker_key state <> "spotify_credentials".
Proof. unfold marker_key. simpl. discriminate. Qed.

Lemma kv_lookup_absent (store : gmap string kv_entry) (key : string) :
  store !! key = None -> kv_lookup now store key = None.
Proof. intros H. unfold kv_lookup. now rewrite H. Qed.

Lemma kv_lookup_expired (store : gmap string kv_entry) (key : string)
    (e : kv_entry) (t : Z) :
  store !! key = Some e -> kv_expiration e = Some t -> t <= now ->
  kv_lookup now store key = None.
Proof.
  intros H He Ht. unfold kv_lookup. rewrite H, He.
  destruct (Z.leb_spec t now); [reflexivity | lia].
Qed.

(** C3. A callback whose [state] parameter names no live marker (never
    stored, or stored and expired) is answered 400; the namespace is left as
    it was and no put is performed, so no Tokens record is written. *)
Theorem callback_rejects_unknown_state (request : Request) (w : world) :
  (forall state : string,
      params_get (searchParams request) "state" = Some state ->
      kv w !! marker_key state = None
      \/ exists (e : kv_entry) (t : Z),
           kv w !! marker_key state = Some e
           /\ kv_expiration e = Some t /\ t <= now) ->
  exists (response : Response) (w' : world),
    handleCallback request w = (Fulfilled response, w')
    /\ status response = 400
    /\ kv w' = kv w
    /\ kv w' !! "spotify_tokens" = kv w !! "spotify_tokens"
    /\ count is_put (events_since w w') = 0%nat.
Proof.
  intros Hmarker. unfold handleCallback.
  destruct (if_truthy (params_get (searchParams request) "error")) as [err|].
  { eexists _, w. rewrite events_since_refl. repeat split. }
  destruct (if_truthy (params_get (searchParams request) "code")) as [code|];
    [|eexists _, w; rewrite events_since_refl; repeat split].
  destruct (params_get (searchParams request) "state") as [state|] eqn:Hstate;
    [|eexists _, w; rewrite events_since_refl; repeat split].
  unfold if_truthy at 1. destruct (nonempty state);
    [|eexists _, w; rewrite events_since_refl; repeat split].
  assert (kv_lookup now (kv w) (marker_key state) = None) as Hnone.
  { destruct (Hmarker state eq_refl) as [Habs | (e & t & He & Ht & Hle)].
    - now apply kv_lookup_absent.
    - now apply kv_lookup_expired with e t. }
  unfold bind at 1. unfold kv_get. rewrite Hnone. cbn [if_truthy].
  eexists _, _. split; [reflexivity|].
  rewrite (events_since_app w (log (EvKvGet (marker_key state)) w)
             [EvKvGet (marker_key state)] eq_refl).
  repeat split.
Qed.

(** C10. A callback whose [state] parameter names a live marker while the
    namespace holds no Credentials record is answered 400, never 500; the
    namespace is left as it was (no Tokens record written, the marker still
    there) and the upstream is not called.  When the request passes the
    parameter checks (no [error], a [code]), the body is the message that
    the credentials are missing. *)
Theorem callback_without_credentials
    (request : Request) (w : world) (state marker : string) :
  if_truthy (params_get (searchParams request) "state") = Some state ->
  if_truthy (kv_lookup now (kv w) (marker_key state)) = Some marker ->
  kv_lookup now (kv w) "spotify_credentials" = None ->
  exists (response : Response) (w' : world),
    handleCallback request w = (Fulfilled response, w')
    /\ status response = 400
    /\ kv w' = kv w
    /\ if_truthy (kv_lookup now (kv w') (marker_key state)) = Some marker
    /\ count is_put (events_since w w') = 0%nat
    /\ count is_fetch (events_since w w') = 0%nat
    /\ (if_truthy (params_get (searchParams request) "error") = None ->
        forall code : string,
          if_truthy (params_get (searchParams request) "code") = Some code ->
          resp_body response =
          BodyText
            ("Token exchange failed: "
             +:+ "No Spotify credentials found. Please complete setup first.")
          /\ events_since w w' =
             [EvKvGet (marker_key state); EvKvGet "spotify_credentials"]).
Proof.
  intros Hstate Hmarker Hcreds. unfold handleCallback.
  destruct (if_truthy (params_get (searchParams request) "error")) as [err|].
  { eexists _, w. rewrite events_since_refl. repeat split; intros; congruence. }
  destruct (if_truthy (params_get (searchParams request) "code")) as [code|].
  2: { eexists _, w. rewrite events_since_refl. repeat split; intros; congruence. }
  rewrite Hstate.
  unfold bind at 1. unfold kv_get. rewrite Hmarker.
  set (w1 := log (EvKvGet (marker_key state)) w).
  assert (getStoredCredentials w1
          = (Fulfilled JNull, log (EvKvGet "spotify_credentials") w1)) as Hget.
  { apply getStoredCredentials_run. now apply stored_value_absent. }
  unfold exchangeCodeForTokens.
  unfold bind at 1. rewrite (bind_run _ _ _ _ _ Hget). cbn [truthy negb].
  eexists _, _. split; [reflexivity|].
  assert (events_since w (log (EvKvGet "spotify_credentials") w1)
          = [EvKvGet (marker_key state); EvKvGet "spotify_credentials"])
    as Hevents.
  { apply events_since_app. subst w1. cbn [trace log].
    now rewrite <- app_assoc. }
  cbn beta iota. rewrite Hevents.
  split; [reflexivity|]. split; [reflexivity|]. split; [exact Hmarker|].
  split; [reflexivity|]. split; [reflexivity|].
  intros _ code' _. split; reflexivity.
Qed.

(** The exchange succeeds exactly when credentials are stored, [btoa]
    accepts them, and the upstream answers the token request with a 2xx
    status and a body that parses; it writes nothing. *)
Lemma exchange_success_inv
    (code callbackOrigin : string) (w w' : world) (data : json) :
  exchangeCodeForTokens code callbackOrigin w
  = (Fulfilled (ExchangeSuccess data), w') ->
  exists (credentials : json) (basic : string) (r : upstream_response),
    stored_value "spotify_credentials" w = Some credentials
    /\ truthy credentials = true
    /\ btoa (basic_payload credentials) = Some basic
    /\ upstream (token_request basic code (callbackOrigin +:+ "/callback"))
       = Some r
    /\ rs_ok r = true
    /\ JSON_parse (rs_body r) = Some data
    /\ kv w' = kv w.
Proof.
  unfold exchangeCodeForTokens, getStoredCredentials.
  unfold bind at 1. rewrite stored_run.
  destruct (stored_value "spotify_credentials" w) as [credentials|];
    [|discriminate].
  destruct (truthy credentials) eqn:Htruthy; cbn [negb]; [|discriminate].
  unfold bind, of_option, ret, throw, global_fetch.
  destruct (btoa (basic_payload credentials)) as [basic|] eqn:Hbtoa;
    [|discriminate].
  destruct (upstream _) as [r|] eqn:Hup; [|discriminate].
  destruct (rs_ok r) eqn:Hok; cbn [negb]; [|discriminate].
  destruct (JSON_parse (rs_body r)) as [data'|] eqn:Hdata; [|discriminate].
  intros [= <- <-]. exists credentials, basic, r. repeat split; assumption.
Qed.

(** C4. A callback that carries a code and the name of a live marker, with
    credentials stored, whose token request the upstream answers with a
    status outside 200..299, is answered 400 with the upstream's status text
    as the reason; the namespace is left as it was, so the Tokens key is
    unchanged and the marker is still there to be read. *)
Theorem callback_exchange_rejected
    (request : Request) (w : world) (code state marker basic : string)
    (credentials : json) (r : upstream_response) :
  if_truthy (params_get (searchParams request) "error") = None ->
  if_truthy (params_get (searchParams request) "code") = Some code ->
  if_truthy (params_get (searchParams request) "state") = Some state ->
  if_truthy (kv_lookup now (kv w) (marker_key state)) = Some marker ->
  stored_value "spotify_credentials" w = Some credentials ->
  truthy credentials = true ->
  btoa (basic_payload credentials) = Some basic ->
  upstream (token_request basic code (origin request +:+ "/callback"))
  = Some r ->
  rs_ok r = false ->
  exists w' : world,
    handleCallback request w =
    (Fulfilled
       (new_Response
          (BodyText
             ("Token exchange failed: "
              +:+ ("Token exchange failed: " +:+ rs_statusText r)))
          400 []), w')
    /\ kv w' = kv w
    /\ kv_lookup now (kv w') "spotify_tokens"
       = kv_lookup now (kv w) "spotify_tokens"
    /\ if_truthy (kv_lookup now (kv w') (marker_key state)) = Some marker
    /\ events_since w w' =
       [ EvKvGet (marker_key state); EvKvGet "spotify_credentials";
         EvFetch (token_request basic code (origin request +:+ "/callback")) ].
Proof.
  intros Herr Hcode Hstate Hmarker Hcreds Htruthy Hbtoa Hup Hok.
  unfold handleCallback. rewrite Herr, Hcode, Hstate.
  unfold bind at 1. unfold kv_get. rewrite Hmarker.
  set (w1 := log (EvKvGet (marker_key state)) w).
  pose proof (getStoredCredentials_run w1 credentials Hcreds) as Hget.
  unfold exchangeCodeForTokens.
  unfold bind at 1. rewrite (bind_run _ _ _ _ _ Hget). rewrite Htruthy.
  cbn [negb]. rewrite Hbtoa. unfold of_option.
  unfold bind, ret, global_fetch. rewrite Hup, Hok. cbn [negb].
  eexists. split; [reflexivity|]. split; [reflexivity|].
  split; [reflexivity|]. split; [exact Hmarker|].
  apply events_since_app. subst w1. cbn [trace log].
  now rewrite <- !app_assoc.
Qed.

(** C2 (as the code has it). A callback that carries a code and the name of
    a live marker, with credentials stored, whose token request the upstream
    answers with a 2xx status and a JSON body, is answered with the success
    page; the payload is put under the Tokens key with a time-to-live of
    3600 seconds, whatever lifetime the payload declares, and the marker is
    then deleted: the marker is read once and deleted once. *)
Theorem callback_success
    (request : Request) (w : world) (code state marker basic : string)
    (credentials data : json) (r : upstream_response) :
  if_truthy (params_get (searchParams request) "error") = None ->
  if_truthy (params_get (searchParams request) "code") = Some code ->
  if_truthy (params_get (searchParams request) "state") = Some state ->
  if_truthy (kv_lookup now (kv w) (marker_key state)) = Some marker ->
  stored_value "spotify_credentials" w = Some credentials ->
  truthy credentials = true ->
  btoa (basic_payload credentials) = Some basic ->
  upstream (token_request basic code (origin request +:+ "/callback"))
  = Some r ->
  rs_ok r = true ->
  JSON_parse (rs_body r) = Some data ->
  exists w' : world,
    handleCallback request w =
    (Fulfilled (new_Response (BodyPage OAuthSuccessPage) 200 html_headers), w')
    /\ kv w' !! "spotify_tokens" =
       Some {| kv_value := JSON_stringify data 0;
               kv_expiration := Some (now + 3600) |}
    /\ kv_lookup now (kv w') "spotify_tokens" = Some (JSON_stringify data 0)
    /\ kv w' !! marker_key state = None
    /\ events_since w w' =
       [ EvKvGet (marker_key state); EvKvGet "spotify_credentials";
         EvFetch (token_request basic code (origin request +:+ "/callback"));
         EvKvPut "spotify_tokens" (JSON_stringify data 0) (Some 3600);
         EvKvDelete (marker_key state) ]
    /\ count (is_get_of (marker_key state)) (events_since w w') = 1%nat
    /\ count (is_delete_of (marker_key state)) (events_since w w') = 1%nat.
Proof.
  intros Herr Hcode Hstate Hmarker Hcreds Htruthy Hbtoa Hup Hok Hdata.
  unfold handleCallback. rewrite Herr, Hcode, Hstate.
  unfold bind at 1. unfold kv_get. rewrite Hmarker.
  set (w1 := log (EvKvGet (marker_key state)) w).
  pose proof (getStoredCredentials_run w1 credentials Hcreds) as Hget.
  unfold exchangeCodeForTokens.
  unfold bind at 1. rewrite (bind_run _ _ _ _ _ Hget). rewrite Htruthy.
  cbn [negb]. rewrite Hbtoa. unfold of_option.
  unfold bind, ret, global_fetch, kv_put, kv_delete.
  rewrite Hup, Hok. cbn [negb]. rewrite Hdata.
  eexists. split; [reflexivity|].
  assert (delete (marker_key state)
            (kv_insert now (kv w) "spotify_tokens" (JSON_stringify data 0)
               (Some 3600)) !! "spotify_tokens"
          = Some {| kv_value := JSON_stringify data 0;
                    kv_expiration := Some (now + 3600) |}) as Htokens.
  { rewrite lookup_delete_ne by apply marker_key_not_tokens.
    unfold kv_insert. now rewrite lookup_insert_eq. }
  match goal with
  | |- context [events_since w ?x] =>
      assert (events_since w x =
              [ EvKvGet (marker_key state); EvKvGet "spotify_credentials";
                EvFetch (token_request basic code
                           (origin request +:+ "/callback"));
                EvKvPut "spotify_tokens" (JSON_stringify data 0) (Some 3600);
                EvKvDelete (marker_key state) ]) as Hevents
        by (apply events_since_app; subst w1; cbn [trace log];
            now rewrite <- !app_assoc)
  end.
  rewrite Hevents. subst w1. cbn [kv trace draws log].
  split; [exact Htokens|]. split.
  { unfold kv_lookup. rewrite Htokens. cbn [kv_expiration kv_value].
    destruct (Z.leb_spec (now + 3600) now); [lia | reflexivity]. }
  split; [apply lookup_delete_eq|].
  split; [reflexivity|].
  cbn [count is_get_of is_delete_of].
  rewrite String.eqb_refl.
  destruct (String.eqb_spec "spotify_credentials" (marker_key state)) as [Heq|_].
  { symmetry in Heq. now apply marker_key_not_credentials in Heq. }
  split; reflexivity.
Qed.

(** *** Credential submission *)

Lemma all_chars_false (p : ascii -> bool) (s : string) :
  all_chars p s = false <->
  exists c : ascii, In c (list_ascii_of_string s) /\ p c = false.
Proof.
  induction s as [|c s IH]; cbn [all_chars list_ascii_of_string In].
  - split; [discriminate | intros (c & [] & _)].
  - rewrite andb_false_iff, IH. split.
    + intros [Hc | (c' & Hin & Hc')]; eauto.
    + intros (c' & [<- | Hin] & Hc'); eauto.
Qed.

(** C5. A posted form in which either field is missing or empty, or whose
    client identifier is shorter than 30 characters or has a character that
    is not a letter or a digit, is answered 400 and the world is left exactly
    as it was: nothing is put, so the Credentials record is not modified. *)
Theorem credentials_rejects_invalid
    (request : Request) (w : world) (form : list (string * string)) :
  method request = "POST" ->
  formData request = Some form ->
  (if_truthy (params_get form "client_id") = None
   \/ if_truthy (params_get form "client_secret") = None
   \/ exists id : string,
        params_get form "client_id" = Some id
        /\ ((String.length id < 30)%nat
            \/ exists c : ascii,
                 In c (list_ascii_of_string id) /\ is_alnum c = false)) ->
  exists (response : Response) (w' : world),
    handleCredentials request w = (Fulfilled response, w')
    /\ status response = 400
    /\ w' = w.
Proof.
  intros Hmethod Hform Hbad.
  enough (exists response : Response,
             handleCredentials request w = (Fulfilled response, w)
             /\ status response = 400) as (response & Hrun & Hstatus)
    by (exists response, w; auto).
  unfold handleCredentials.
  rewrite Hmethod, Hform. cbn [String.eqb Ascii.eqb Bool.eqb andb].
  unfold try_catch, bind, of_option, ret.
  destruct (if_truthy (params_get form "client_id")) as [clientId|] eqn:Hid;
    [|now eexists].
  destruct (if_truthy (params_get form "client_secret")) as [secret|] eqn:Hsec;
    [|now eexists].
  destruct Hbad as [Hbad | [Hbad | (id & Hget & Hbad)]]; try discriminate.
  assert (clientId = id) as ->.
  { rewrite Hget in Hid. unfold if_truthy in Hid.
    destruct (nonempty id); congruence. }
  assert ((String.length id <? 30)%nat || negb (matches_alnum id) = true)
    as ->; [|now eexists].
  apply orb_true_iff. destruct Hbad as [Hshort | Hchar].
  - left. now apply Nat.ltb_lt.
  - right. apply negb_true_iff. unfold matches_alnum.
    apply andb_false_iff. right. now apply all_chars_false.
Qed.

(** *** Authorization initiation *)

Lemma append_assoc (a b c : string) : (a +:+ b) +:+ c = a +:+ (b +:+ c).
Proof.
  induction a as [|x a IH]; [reflexivity|].
  change (String x ((a +:+ b) +:+ c) = String x (a +:+ (b +:+ c))).
  now rewrite IH.
Qed.

Lemma charAt_charset (i : nat) :
  (i < 62)%nat ->
  exists c : ascii,
    charAt charset i = String c EmptyString /\ is_alnum c = true.
Proof.
  intros Hi.
  do 62 (destruct i as [|i]; [eexists; split; reflexivity|]).
  lia.
Qed.

Lemma generateRandomString_loop_run (n : nat) :
  (forall i : nat, (Math_random_floor 62 i < 62)%nat) ->
  forall (result : string) (w : world),
  exists s : string,
    generateRandomString_loop n result w =
    (Fulfilled (result +:+ s),
     {| kv := kv w; draws := (draws w + n)%nat; trace := trace w |})
    /\ String.length s = n
    /\ all_chars is_alnum s = true.
Proof.
  intros Hrange. induction n as [|n IH]; intros result w.
  - exists EmptyString. cbn [generateRandomString_loop].
    replace (result +:+ EmptyString) with result
      by (induction result as [|x r IHr]; [reflexivity|];
          change (String x r = String x (r +:+ EmptyString)); now rewrite <- IHr).
    rewrite Nat.add_0_r. destruct w. now repeat split.
  - cbn [generateRandomString_loop]. unfold bind, random_floor.
    change (String.length charset) with 62%nat.
    destruct (charAt_charset _ (Hrange (draws w))) as (c & -> & Hc).
    destruct (IH (result +:+ String c EmptyString)
                {| kv := kv w; draws := S (draws w); trace := trace w |})
      as (s & -> & Hlen & Hall).
    exists (String c s). cbn [kv draws trace].
    rewrite append_assoc.
    change (String c EmptyString +:+ s) with (String c s).
    replace (S (draws w) + n)%nat with (draws w + S n)%nat by lia.
    repeat split.
    + cbn [String.length]. now rewrite Hlen.
    + cbn [all_chars]. now rewrite Hc, Hall.
Qed.

(** C6. A POST to the setup route with credentials stored (a record whose
    client identifier is a string of letters and digits, as a submission
    stores it) draws a state identifier of 16 letters and digits, puts
    [pending] under the key [oauth_state_] followed by the state with a
    time-to-live of 600 seconds, and answers with a 302 redirect to the
    authorization URL, which carries response type [code], the stored
    client identifier, the three scopes, the callback URL made of the
    request's origin and [/callback], and the state identifier.  The
    origin is taken without an apostrophe, the one character that
    [encodeURIComponent] leaves as it is and the redirect would escape. *)
Theorem setup_post_starts_authorization
    (request : Request) (w : world) (credentials : json) (clientId : string) :
  (forall i : nat, (Math_random_floor 62 i < 62)%nat) ->
  method request = "POST" ->
  stored_value "spotify_credentials" w = Some credentials ->
  get_prop credentials "client_id" = Some (JStr clientId) ->
  all_chars is_alnum clientId = true ->
  ~ In "'"%char (list_ascii_of_string (origin request)) ->
  exists (state : string) (w' : world),
    handleSetup request w =
    (Fulfilled
       {| status := 302;
          headers :=
            [ ("Location",
               "https://accounts.spotify.com/authorize?response_type=code"
               +:+ "&client_id=" +:+ clientId
               +:+ "&scope="
               +:+ encodeURIComponent
                     "user-read-currently-playing user-read-recently-played user-read-playback-state"
               +:+ "&redirect_uri="
               +:+ encodeURIComponent (origin request +:+ "/callback")
               +:+ "&state=" +:+ state) ];
          resp_body := BodyNull |}, w')
    /\ (16 <= String.length state)%nat
    /\ all_chars is_alnum state = true
    /\ kv w' =
       <[ "oauth_state_" +:+ state :=
            {| kv_value := "pending"; kv_expiration := Some (now + 600) |} ]>
         (kv w)
    /\ kv_lookup now (kv w') ("oauth_state_" +:+ state) = Some "pending"
    /\ events_since w w' =
       [ EvKvGet "spotify_credentials";
         EvKvPut ("oauth_state_" +:+ state) "pending" (Some 600) ].
Proof.
  intros Hrange Hmethod Hcreds Hid Hall _.
  assert (truthy credentials = true) as Htruthy
    by (destruct credentials; try discriminate; reflexivity).
  unfold handleSetup.
  rewrite (bind_run _ _ _ _ _ (getStoredCredentials_run w credentials Hcreds)).
  rewrite Htruthy, Hmethod, Hid.
  cbn [negb String.eqb Ascii.eqb Bool.eqb andb template js_to_string].
  unfold generateRandomString.
  destruct (generateRandomString_loop_run 16 Hrange EmptyString
              (log (EvKvGet "spotify_credentials") w))
    as (state & Hrun & Hlen & Hstate).
  change (EmptyString +:+ state) with state in Hrun.
  rewrite (bind_run _ _ _ _ _ Hrun).
  unfold bind, kv_put, ret. cbn [kv draws trace log].
  exists state. eexists. split; [reflexivity|].
  cbn [kv]. split; [lia|]. split; [exact Hstate|]. split; [reflexivity|].
  split.
  { unfold kv_lookup. cbn [kv log]. unfold kv_insert, marker_key.
    rewrite lookup_insert_eq. cbn [kv_expiration kv_value fmap option_fmap
                                     option_map].
    destruct (Z.leb_spec (now + 600) now); [lia | reflexivity]. }
  apply events_since_app. cbn [trace log]. now rewrite <- app_assoc.
Qed.

(** *** Setup status *)

(** C1. The status derived from the two presence conditions is the one the
    table gives, and it is what both handlers report: the landing page shows
    the state of (credentials truthy, tokens truthy), the health report shows
    the state of (credentials not null, tokens not null); the three states
    are shown differently, so exactly one of them is reported. *)
Theorem setup_status_classification
    (request : Request) (w : world) (credentials tokens : json) :
  stored_value "spotify_credentials" w = Some credentials ->
  stored_value "spotify_tokens" w = Some tokens ->
  let w' := log (EvKvGet "spotify_tokens") (log (EvKvGet "spotify_credentials") w) in
  let shown := Spec.status (truthy credentials) (truthy tokens) in
  let reported := Spec.status (not_null credentials) (not_null tokens) in
  (forall t : bool, Spec.status false t = Spec.NOT_STARTED)
  /\ Spec.status true false = Spec.CREDENTIALS_ONLY
  /\ Spec.status true true = Spec.COMPLETE
  /\ (forall c t : bool, root_status c t = Spec.root_view (Spec.status c t))
  /\ (forall c t : bool,
        (c && t, health_next_step c t) = Spec.health_view (Spec.status c t))
  /\ (forall s1 s2 : Spec.SetupStatus,
        fst (fst (Spec.root_view s1)) = fst (fst (Spec.root_view s2)) -> s1 = s2)
  /\ (forall s1 s2 : Spec.SetupStatus,
        snd (Spec.health_view s1) = snd (Spec.health_view s2) -> s1 = s2)
  /\ handleRoot request w =
     (Fulfilled
        (new_Response
           (BodyPage
              (RootPage (fst (fst (Spec.root_view shown)))
                 (snd (fst (Spec.root_view shown))) (snd (Spec.root_view shown))))
           200 html_headers), w')
  /\ handleHealth request w =
     (Fulfilled
        (new_Response
           (BodyText
              (JSON_stringify
                 (health_object (not_null credentials) (not_null tokens)) 2))
           200 json_headers), w')
  /\ get_prop (health_object (not_null credentials) (not_null tokens))
       "setup_complete" = Some (JBool (fst (Spec.health_view reported)))
  /\ get_prop (health_object (not_null credentials) (not_null tokens))
       "next_step" = Some (JStr (snd (Spec.health_view reported))).
Proof.
  intros Hc Ht w' shown reported.
  assert (forall c t : bool, root_status c t = Spec.root_view (Spec.status c t)) as Hroot
    by (intros [] []; reflexivity).
  assert (forall c t : bool,
             (c && t, health_next_step c t) = Spec.health_view (Spec.status c t))
    as Hhealth by (intros [] []; reflexivity).
  pose proof (getStoredCredentials_run w credentials Hc) as Hgc.
  pose proof (getStoredTokens_run (log (EvKvGet "spotify_credentials") w)
                tokens Ht) as Hgt.
  split; [reflexivity|]. split; [reflexivity|]. split; [reflexivity|].
  split; [exact Hroot|]. split; [exact Hhealth|].
  split; [intros [] []; cbn; congruence|].
  split; [intros [] []; cbn; congruence|].
  split.
  { unfold handleRoot.
    rewrite (bind_run _ _ _ _ _ Hgc), (bind_run _ _ _ _ _ Hgt), Hroot.
    fold shown. now destruct (Spec.root_view shown) as [[? ?] ?]. }
  split.
  { unfold handleHealth.
    now rewrite (bind_run _ _ _ _ _ Hgc), (bind_run _ _ _ _ _ Hgt). }
  pose proof (Hhealth (not_null credentials) (not_null tokens)) as Hview.
  fold reported in Hview. rewrite <- Hview. split; reflexivity.
Qed.

(** The two presence tests agree on what the worker itself stores (objects)
    and part on the falsy JSON values other than [null]. *)
Lemma presence_tests_agree_on_objects (fields : list (string * json)) :
  truthy (JObj fields) = not_null (JObj fields).
Proof. reflexivity. Qed.

Lemma presence_tests_part_on_zero :
  truthy (JNum "0") = false /\ not_null (JNum "0") = true.
Proof. split; reflexivity. Qed.

(** *** Cross-origin headers *)

(** C9 (at the failing request). The answer to a callback that reports
    [error=access_denied] is the 400 built without any header: none of the
    cross-origin headers is on it. *)
Theorem callback_error_lacks_cors (w : world) :
  fetch Sample.callback_denied w =
  (Fulfilled (new_Response (BodyText "OAuth Error: access_denied") 400 []), w)
  /\ assoc_get
       (headers (new_Response (BodyText "OAuth Error: access_denied") 400 []))
       "Access-Control-Allow-Origin" = None
  /\ assoc_get corsHeaders "Access-Control-Allow-Origin" = Some "*".
Proof. repeat split. Qed.

(** ** Further properties of the handlers *)

(** *** The dispatcher *)

(** X1. A preflight is answered before any routing: whatever the path and
    whatever the namespace holds, an OPTIONS request gets the empty 200 with
    the cross-origin headers and the world is not touched. *)
Theorem preflight_precedes_routing (request : Request) (w : world) :
  method request = "OPTIONS" ->
  fetch request w = (Fulfilled (new_Response BodyNull 200 corsHeaders), w)
  /\ events_since w (snd (fetch request w)) = [].
Proof.
  intros Hmethod.
  assert (fetch request w
          = (Fulfilled (new_Response BodyNull 200 corsHeaders), w)) as Hrun
    by (unfold fetch; now rewrite Hmethod).
  split; [exact Hrun|]. rewrite Hrun. apply events_since_refl.
Qed.

(** X2. A path that is none of the seven routes is answered 404 with the
    cross-origin headers, without reading the namespace. *)
Theorem unknown_path_not_found (request : Request) (w : world) :
  method request <> "OPTIONS" ->
  ~ In (pathname request)
      [ "/"; "/setup"; "/credentials"; "/callback"; "/now-playing";
        "/recent"; "/health" ] ->
  fetch request w
  = (Fulfilled (new_Response (BodyText "Not Found") 404 corsHeaders), w).
Proof.
  intros Hmethod Hpath. unfold fetch.
  destruct (String.eqb_spec (method request) "OPTIONS") as [|_]; [easy|].
  repeat (match goal with
          | |- context [String.eqb (pathname request) ?p] =>
              destruct (String.eqb_spec (pathname request) p) as [Heq|_];
              [exfalso; apply Hpath; rewrite Heq; cbn; tauto|]
          end).
  reflexivity.
Qed.

(** *** Authorization initiation *)

(** X3. Without usable credentials (nothing stored, or a stored value that
    parses to a falsy one) the setup route redirects to the credentials
    route whatever the method: a POST draws no state and puts no marker. *)
Theorem setup_without_credentials
    (request : Request) (w : world) (credentials : json) :
  stored_value "spotify_credentials" w = Some credentials ->
  truthy credentials = false ->
  handleSetup request w
  = (Fulfilled (Response_redirect (origin request +:+ "/credentials") 302),
     log (EvKvGet "spotify_credentials") w).
Proof.
  intros Hstored Hfalsy. unfold handleSetup.
  rewrite (bind_run _ _ _ _ _ (getStoredCredentials_run w credentials Hstored)).
  now rewrite Hfalsy.
Qed.

(** X4. With credentials stored, any method other than POST gets the setup
    page and the only effect is the read of the credentials: no marker is
    put and no state is drawn. *)
Theorem setup_page_has_no_side_effect
    (request : Request) (w : world) (credentials : json) :
  stored_value "spotify_credentials" w = Some credentials ->
  truthy credentials = true ->
  method request <> "POST" ->
  handleSetup request w
  = (Fulfilled (new_Response (BodyPage SetupPage) 200 html_headers),
     log (EvKvGet "spotify_credentials") w).
Proof.
  intros Hstored Htruthy Hmethod. unfold handleSetup.
  rewrite (bind_run _ _ _ _ _ (getStoredCredentials_run w credentials Hstored)).
  rewrite Htruthy. cbn [negb].
  now destruct (String.eqb_spec (method request) "POST").
Qed.

(** *** Credential submission *)

(** The record that [handleCredentials] stores. *)
Definition credentials_record (clientId clientSecret : string) : json :=
  JObj [ ("client_id", JStr clientId);
         ("client_secret", JStr clientSecret);
         ("created_at", JStr (Date_toISOString now)) ].

(** X5. A posted form with a non-empty secret and an identifier of at least
    30 letters and digits overwrites the Credentials record with the
    submitted pair and the time of the request, without expiry (it is read
    back at any later time), touches no other key, and redirects to the
    setup route. *)
Theorem credentials_accepted
    (request : Request) (w : world) (form : list (string * string))
    (clientId clientSecret : string) :
  method request = "POST" ->
  formData request = Some form ->
  if_truthy (params_get form "client_id") = Some clientId ->
  if_truthy (params_get form "client_secret") = Some clientSecret ->
  (30 <= String.length clientId)%nat ->
  all_chars is_alnum clientId = true ->
  let text := JSON_stringify (credentials_record clientId clientSecret) 0 in
  exists w' : world,
    handleCredentials request w
    = (Fulfilled (Response_redirect (origin request +:+ "/setup") 302), w')
    /\ events_since w w' = [EvKvPut "spotify_credentials" text None]
    /\ (forall later : Z,
          kv_lookup later (kv w') "spotify_credentials" = Some text)
    /\ (forall key : string,
          key <> "spotify_credentials" -> kv w' !! key = kv w !! key).
Proof.
  intros Hmethod Hform Hid Hsecret Hlen Hall text.
  assert (nonempty clientId = true) as Hne.
  { destruct clientId; [cbn in Hlen; lia | reflexivity]. }
  unfold handleCredentials. rewrite Hmethod, Hform.
  cbn [String.eqb Ascii.eqb Bool.eqb andb].
  unfold try_catch, bind, of_option, ret. rewrite Hid, Hsecret.
  assert ((String.length clientId <? 30)%nat
          || negb (matches_alnum clientId) = false) as ->.
  { apply orb_false_iff. split; [now apply Nat.ltb_ge|].
    unfold matches_alnum. now rewrite Hne, Hall. }
  unfold kv_put. fold (credentials_record clientId clientSecret). fold text.
  eexists. split; [reflexivity|]. split; [now apply events_since_app|].
  cbn [kv log]. unfold kv_insert. split.
  - intros later. unfold kv_lookup. now rewrite lookup_insert_eq.
  - intros key Hkey. now rewrite lookup_insert_ne.
Qed.

(** X6. When the body of a POST to the credentials route cannot be read as
    a form, the answer is the 500 page with the generic retry message and
    the world is not touched. *)
Theorem credentials_unreadable_form (request : Request) (w : world) :
  method request = "POST" ->
  formData request = None ->
  handleCredentials request w
  = (Fulfilled
       (new_Response
          (BodyPage
             (CredentialsPage
                (Some "Error processing credentials. Please try again.")
                (origin request)))
          500 html_headers), w).
Proof.
  intros Hmethod Hform. unfold handleCredentials. now rewrite Hmethod, Hform.
Qed.

(** *** The callback, before the store is read *)

(** X7. A callback that reports an error, or lacks the code or the state,
    is answered 400 before the namespace is read: no effect at all, even
    when the state names a live marker.  The answer has the content type
    that the constructor gives a string body and no other header, so none
    of the cross-origin ones.  An error wins over the other parameters and
    is echoed in the body. *)
Theorem callback_early_exit (request : Request) (w : world) :
  if_truthy (params_get (searchParams request) "error") <> None
  \/ if_truthy (params_get (searchParams request) "code") = None
  \/ if_truthy (params_get (searchParams request) "state") = None ->
  exists response : Response,
    handleCallback request w = (Fulfilled response, w)
    /\ status response = 400
    /\ headers response = [("content-type", "text/plain;charset=UTF-8")]
    /\ (forall h : string * string,
          In h corsHeaders -> assoc_get (headers response) (fst h) = None)
    /\ (forall error : string,
          if_truthy (params_get (searchParams request) "error") = Some error ->
          resp_body response = BodyText ("OAuth Error: " +:+ error))
    /\ (if_truthy (params_get (searchParams request) "error") = None ->
        resp_body response = BodyText "Missing authorization code or state").
Proof.
  intros Hbad.
  assert (forall text : string,
             forall h : string * string,
               In h corsHeaders ->
               assoc_get (headers (new_Response (BodyText text) 400 []))
                 (fst h) = None) as Hcors.
  { intros text h [<- | [<- | [<- | []]]]; reflexivity. }
  unfold handleCallback.
  destruct (if_truthy (params_get (searchParams request) "error")) as [err|].
  { eexists. split; [reflexivity|]. split; [reflexivity|].
    split; [reflexivity|]. split; [apply Hcors|].
    split; [now intros ? [= <-] | discriminate]. }
  assert (exists response : Response,
             Response_new (BodyText "Missing authorization code or state")
               400 [] w = (Fulfilled response, w)
             /\ status response = 400
             /\ headers response = [("content-type", "text/plain;charset=UTF-8")]
             /\ (forall h : string * string,
                   In h corsHeaders ->
                   assoc_get (headers response) (fst h) = None)
             /\ (forall error : string,
                   @None string = Some error ->
                   resp_body response = BodyText ("OAuth Error: " +:+ error))
             /\ (@None string = None ->
                 resp_body response
                 = BodyText "Missing authorization code or state")) as Hmissing.
  { eexists. split; [reflexivity|]. split; [reflexivity|].
    split; [reflexivity|]. split; [apply Hcors|].
    split; [discriminate | reflexivity]. }
  destruct Hbad as [Hbad | [-> | Hstate]]; [easy | exact Hmissing |].
  rewrite Hstate.
  now destruct (if_truthy (params_get (searchParams request) "code")).
Qed.

(** *** The data routes, once tokens are stored *)











(** *** Utility functions *)

(** The loop only consumes draws, whatever their values. *)
Lemma generateRandomString_loop_effect (n : nat) :
  forall (result : string) (w : world),
  exists s : string,
    generateRandomString_loop n result w =
    (Fulfilled s,
     {| kv := kv w; draws := (draws w + n)%nat; trace := trace w |}).
Proof.
  induction n as [|n IH]; intros result w.
  - exists result. cbn [generateRandomString_loop]. unfold ret.
    rewrite Nat.add_0_r. now destruct w.
  - cbn [generateRandomString_loop]. unfold bind, random_floor.
    destruct (IH (result +:+ charAt charset
                               (Math_random_floor (String.length charset)
                                  (draws w)))
                {| kv := kv w; draws := S (draws w); trace := trace w |})
      as (s & ->).
    exists s. cbn [kv draws trace].
    now replace (S (draws w) + n)%nat with (draws w + S n)%nat by lia.
Qed.

(** X11. With every draw below the size of the alphabet,
    [generateRandomString n] yields exactly [n] characters, each a letter
    or a digit, consumes exactly [n] draws and has no other effect. *)
Theorem generateRandomString_length_alphabet (n : nat) (w : world) :
  (forall i : nat, (Math_random_floor 62 i < 62)%nat) ->
  exists s : string,
    generateRandomString n w =
    (Fulfilled s,
     {| kv := kv w; draws := (draws w + n)%nat; trace := trace w |})
    /\ String.length s = n
    /\ all_chars is_alnum s = true
    /\ (forall c : ascii,
          In c (list_ascii_of_string s) ->
          In c (list_ascii_of_string charset)).
Proof.
  intros Hrange. unfold generateRandomString.
  destruct (generateRandomString_loop_run n Hrange EmptyString w)
    as (s & Hrun & Hlen & Hall).
  exists s. split; [exact Hrun|]. split; [exact Hlen|]. split; [exact Hall|].
  intros c Hin.
  assert (is_alnum c = true) as Hc.
  { destruct (is_alnum c) eqn:Hc; [reflexivity|].
    assert (all_chars is_alnum s = false) as Hfalse
      by (apply all_chars_false; eauto).
    congruence. }
  revert Hc. clear. unfold is_alnum.
  destruct c as [[] [] [] [] [] [] [] []]; cbn; intros Hc;
    try discriminate; tauto.
Qed.

(** *** The token exchange *)

(** X12. [exchangeCodeForTokens] succeeds with [data] exactly when
    credentials are stored, [btoa] accepts [id:secret], and the upstream
    answers the POST to the token endpoint (basic authorization, grant type
    [authorization_code], the code, the origin's [/callback]) with a 2xx
    status and a body that parses to [data]; it then has read the
    credentials and called the upstream once, and written nothing. *)
Theorem exchange_success_iff
    (code callbackOrigin : string) (w w' : world) (data : json) :
  exchangeCodeForTokens code callbackOrigin w
  = (Fulfilled (ExchangeSuccess data), w')
  <->
  exists (credentials : json) (basic : string) (r : upstream_response),
    stored_value "spotify_credentials" w = Some credentials
    /\ truthy credentials = true
    /\ btoa (template (get_prop credentials "client_id") +:+ ":"
             +:+ template (get_prop credentials "client_secret"))
       = Some basic
    /\ upstream
         {| rq_url := "https://accounts.spotify.com/api/token";
            rq_method := "POST";
            rq_headers :=
              [ ("Content-Type", "application/x-www-form-urlencoded");
                ("Authorization", "Basic " +:+ basic) ];
            rq_body :=
              [ ("grant_type", "authorization_code");
                ("code", code);
                ("redirect_uri", callbackOrigin +:+ "/callback") ] |}
       = Some r
    /\ rs_ok r = true
    /\ JSON_parse (rs_body r) = Some data
    /\ w' = log (EvFetch (token_request basic code
                            (callbackOrigin +:+ "/callback")))
              (log (EvKvGet "spotify_credentials") w).
Proof.
  unfold exchangeCodeForTokens, getStoredCredentials.
  unfold bind at 1. rewrite stored_run. split.
  - destruct (stored_value "spotify_credentials" w) as [credentials|];
      [|discriminate].
    destruct (truthy credentials) eqn:Htruthy; cbn [negb]; [|discriminate].
    unfold bind, of_option, ret, throw, global_fetch.
    destruct (btoa (basic_payload credentials)) as [basic|] eqn:Hbtoa;
      [|discriminate].
    destruct (upstream _) as [r|] eqn:Hup; [|discriminate].
    destruct (rs_ok r) eqn:Hok; cbn [negb]; [|discriminate].
    destruct (JSON_parse (rs_body r)) as [data'|] eqn:Hdata; [|discriminate].
    intros [= <- <-]. exists credentials, basic, r. repeat split; assumption.
  - intros (credentials & basic & r & -> & -> & Hbtoa & Hup & Hok & Hdata & ->).
    cbn [negb]. unfold bind, of_option, ret, global_fetch.
    unfold basic_payload. rewrite Hbtoa.
    change (token_request basic code (callbackOrigin +:+ "/callback"))
      with {| rq_url := "https://accounts.spotify.com/api/token";
              rq_method := "POST";
              rq_headers :=
                [ ("Content-Type", "application/x-www-form-urlencoded");
                  ("Authorization", "Basic " +:+ basic) ];
              rq_body :=
                [ ("grant_type", "authorization_code");
                  ("code", code);
                  ("redirect_uri", callbackOrigin +:+ "/callback") ] |}.
    now rewrite Hup, Hok, Hdata.
Qed.

(** X13. When the call to the token endpoint itself fails (the global
    [fetch] rejects), the callback neither answers 400 nor anything else:
    the handler rejects, and so does the worker's [fetch], whose [catch] is
    not reached.  No Tokens record is written and the marker stays. *)
Theorem callback_rejects_when_upstream_unreachable
    (request : Request) (w : world) (code state marker basic : string)
    (credentials : json) :
  method request <> "OPTIONS" ->
  pathname request = "/callback" ->
  if_truthy (params_get (searchParams request) "error") = None ->
  if_truthy (params_get (searchParams request) "code") = Some code ->
  if_truthy (params_get (searchParams request) "state") = Some state ->
  if_truthy (kv_lookup now (kv w) (marker_key state)) = Some marker ->
  stored_value "spotify_credentials" w = Some credentials ->
  truthy credentials = true ->
  btoa (basic_payload credentials) = Some basic ->
  upstream (token_request basic code (origin request +:+ "/callback"))
  = None ->
  let w' :=
    log (EvFetch (token_request basic code (origin request +:+ "/callback")))
      (log (EvKvGet "spotify_credentials")
         (log (EvKvGet (marker_key state)) w)) in
  handleCallback request w = (Rejected, w')
  /\ fetch request w = (Rejected, w')
  /\ kv w' = kv w
  /\ if_truthy (kv_lookup now (kv w') (marker_key state)) = Some marker.
Proof.
  intros Hmethod Hpath Herr Hcode Hstate Hmarker Hcreds Htruthy Hbtoa Hup w'.
  assert (handleCallback request w = (Rejected, w')) as Hrun.
  { unfold handleCallback. rewrite Herr, Hcode, Hstate.
    unfold bind at 1. unfold kv_get. rewrite Hmarker.
    pose proof (getStoredCredentials_run
                  (log (EvKvGet (marker_key state)) w) credentials Hcreds)
      as Hget.
    unfold exchangeCodeForTokens.
    unfold bind at 1. rewrite (bind_run _ _ _ _ _ Hget), Htruthy.
    cbn [negb]. rewrite Hbtoa. unfold of_option, bind, ret, global_fetch.
    now rewrite Hup. }
  split; [exact Hrun|]. split.
  { unfold fetch. destruct (String.eqb_spec (method request) "OPTIONS");
      [easy|]. now rewrite Hpath. }
  split; [reflexivity | exact Hmarker].
Qed.

(** *** The journal of a request

    Every handler, on every path and whatever its outcome, only appends to
    the trace, and the store it leaves is the store it found with the puts
    and deletes it appended replayed.  Bounding what a handler appends
    bounds what it can have done. *)

Definition is_marker_key (key : string) : bool :=
  String.prefix "oauth_state_" key.

(** The puts and deletes of a list of events, applied in order. *)
Fixpoint replay (l : list event) (store : gmap string kv_entry)
  : gmap string kv_entry :=
  match l with
  | [] => store
  | EvKvPut key value ttl :: rest =>
      replay rest (kv_insert now store key value ttl)
  | EvKvDelete key :: rest => replay rest (delete key store)
  | _ :: rest => replay rest store
  end.

(** [e] writes, if at all, a key that [writable] accepts. *)
Definition writes_within (writable : string -> bool) (e : event) : bool :=
  match e with
  | EvKvPut key _ _ => writable key
  | EvKvDelete key => writable key
  | _ => true
  end.

(** At most [calls] upstream calls, and writes only to [writable] keys. *)
Definition within (calls : nat) (writable : string -> bool) (l : list event)
  : Prop :=
  (count is_fetch l <= calls)%nat
  /\ forallb (writes_within writable) l = true.

Definition journalled {A : Type} (calls : nat) (writable : string -> bool)
    (c : M A) : Prop :=
  forall w : world,
  exists l : list event,
    trace (snd (c w)) = (trace w ++ l)%list
    /\ kv (snd (c w)) = replay l (kv w)
    /\ within calls writable l.

(** The upstream calls a route may make and the keys it may write. *)
Definition route_calls (path : string) : nat :=
  if String.eqb path "/callback" then 1%nat
  else if String.eqb path "/now-playing" then 1%nat
  else if String.eqb path "/recent" then 1%nat
  else 0%nat.

Definition route_writes (path key : string) : bool :=
  if String.eqb path "/setup" then is_marker_key key
  else if String.eqb path "/credentials" then
    String.eqb key "spotify_credentials"
  else if String.eqb path "/callback" then
    String.eqb key "spotify_tokens" || is_marker_key key
  else false.

Lemma count_app (p : event -> bool) (l1 l2 : list event) :
  count p (l1 ++ l2) = (count p l1 + count p l2)%nat.
Proof.
  induction l1 as [|e l1 IH]; [reflexivity|].
  cbn [count app]. rewrite IH. lia.
Qed.

Lemma replay_app (l1 l2 : list event) (store : gmap string kv_entry) :
  replay (l1 ++ l2) store = replay l2 (replay l1 store).
Proof.
  revert store. induction l1 as [|e l1 IH]; intros store; [reflexivity|].
  destruct e; cbn [replay app]; apply IH.
Qed.

Lemma within_nil (calls : nat) (writable : string -> bool) :
  within calls writable [].
Proof. split; [cbn; lia | reflexivity]. Qed.

Lemma within_app (n1 n2 : nat) (writable : string -> bool)
    (l1 l2 : list event) :
  within n1 writable l1 -> within n2 writable l2 ->
  within (n1 + n2) writable (l1 ++ l2).
Proof.
  intros [Hc1 Hw1] [Hc2 Hw2]. split.
  - rewrite count_app. lia.
  - now rewrite forallb_app, Hw1, Hw2.
Qed.

Lemma within_more (n n' : nat) (writable : string -> bool) (l : list event) :
  (n <= n')%nat -> within n writable l -> within n' writable l.
Proof. intros Hle [Hc Hw]. split; [lia | exact Hw]. Qed.

Lemma is_marker_key_marker (state : string) :
  is_marker_key (marker_key state) = true.
Proof. unfold is_marker_key, marker_key. now destruct state. Qed.

Lemma replay_frame (writable : string -> bool) (l : list event)
    (store : gmap string kv_entry) (key : string) :
  forallb (writes_within writable) l = true ->
  writable key = false ->
  replay l store !! key = store !! key.
Proof.
  intros Hall Hkey. revert store Hall.
  induction l as [|e l IH]; intros store Hall; [reflexivity|].
  cbn [forallb] in Hall. apply andb_true_iff in Hall as [He Hall].
  destruct e as [k | k v ttl | k | req]; cbn [replay writes_within] in *;
    rewrite (IH _ Hall); try reflexivity.
  - unfold kv_insert. apply lookup_insert_ne. congruence.
  - apply lookup_delete_ne. congruence.
Qed.

Section Journal.

Variable calls : nat.
Variable writable : string -> bool.

Lemma journalled_ret {A : Type} (a : A) : journalled calls writable (ret a).
Proof.
  intros w. exists []. cbn. rewrite app_nil_r.
  split; [reflexivity|]. split; [reflexivity | apply within_nil].
Qed.

Lemma journalled_throw {A : Type} : journalled calls writable (@throw A).
Proof.
  intros w. exists []. cbn. rewrite app_nil_r.
  split; [reflexivity|]. split; [reflexivity | apply within_nil].
Qed.

Lemma journalled_Response_new (b : body) (st : Z)
    (hs : list (string * string)) :
  journalled calls writable (Response_new b st hs).
Proof.
  unfold Response_new.
  destruct (Response_init_ok b st);
    [apply journalled_ret | apply journalled_throw].
Qed.

Lemma journalled_of_option {A : Type} (o : option A) :
  journalled calls writable (of_option o).
Proof. destruct o; [apply journalled_ret | apply journalled_throw]. Qed.

Lemma journalled_kv_get (key : string) :
  journalled calls writable (kv_get key).
Proof.
  intros w. exists [EvKvGet key]. cbn.
  split; [reflexivity|]. split; [reflexivity|]. split; [cbn; lia | reflexivity].
Qed.

Lemma journalled_kv_put (key value : string) (ttl : option Z) :
  writable key = true -> journalled calls writable (kv_put key value ttl).
Proof.
  intros Hkey w. exists [EvKvPut key value ttl]. cbn.
  split; [reflexivity|]. split; [reflexivity|].
  split; [cbn; lia | cbn; now rewrite Hkey].
Qed.

Lemma journalled_kv_delete (key : string) :
  writable key = true -> journalled calls writable (kv_delete key).
Proof.
  intros Hkey w. exists [EvKvDelete key]. cbn.
  split; [reflexivity|]. split; [reflexivity|].
  split; [cbn; lia | cbn; now rewrite Hkey].
Qed.

Lemma journalled_global_fetch (req : upstream_request) :
  journalled (S calls) writable (global_fetch req).
Proof.
  intros w. exists [EvFetch req]. unfold global_fetch.
  destruct (upstream req); cbn;
    (split; [reflexivity|]; split; [reflexivity|];
     split; [cbn; lia | reflexivity]).
Qed.

Lemma journalled_generateRandomString (n : nat) :
  journalled calls writable (generateRandomString n).
Proof.
  intros w. unfold generateRandomString.
  destruct (generateRandomString_loop_effect n EmptyString w) as (s & ->).
  exists []. cbn. rewrite app_nil_r.
  split; [reflexivity|]. split; [reflexivity | apply within_nil].
Qed.

End Journal.

Lemma journalled_bind {A B : Type} (n1 n2 : nat) (writable : string -> bool)
    (c : M A) (k : A -> M B) :
  journalled n1 writable c ->
  (forall a : A, journalled n2 writable (k a)) ->
  journalled (n1 + n2) writable (bind c k).
Proof.
  intros Hc Hk w. destruct (Hc w) as (l1 & Ht1 & Hs1 & Hw1).
  unfold bind. destruct (c w) as [[a|] w1]; cbn [snd] in *.
  - destruct (Hk a w1) as (l2 & Ht2 & Hs2 & Hw2). exists (l1 ++ l2)%list.
    rewrite Ht2, Ht1, Hs2, Hs1, replay_app, app_assoc.
    split; [reflexivity|]. split; [reflexivity|]. now apply within_app.
  - exists l1. split; [exact Ht1|]. split; [exact Hs1|].
    apply within_more with n1; [lia | exact Hw1].
Qed.

(** A step that calls nothing, then the rest. *)
Lemma journalled_then {A B : Type} (n : nat) (writable : string -> bool)
    (c : M A) (k : A -> M B) :
  journalled 0 writable c ->
  (forall a : A, journalled n writable (k a)) ->
  journalled n writable (bind c k).
Proof. apply (journalled_bind 0 n). Qed.

(** The step that calls, then a rest that calls nothing. *)
Lemma journalled_call_then {A B : Type} (n : nat) (writable : string -> bool)
    (c : M A) (k : A -> M B) :
  journalled n writable c ->
  (forall a : A, journalled 0 writable (k a)) ->
  journalled n writable (bind c k).
Proof.
  intros Hc Hk. rewrite <- (Nat.add_0_r n). now apply journalled_bind.
Qed.

Lemma journalled_try_catch {A : Type} (n : nat) (writable : string -> bool)
    (body handler : M A) :
  journalled n writable body ->
  journalled 0 writable handler ->
  journalled n writable (try_catch body handler).
Proof.
  intros Hb Hh w. destruct (Hb w) as (l1 & Ht1 & Hs1 & Hw1).
  unfold try_catch. destruct (body w) as [[a|] w1]; cbn [snd] in *.
  - now exists l1.
  - destruct (Hh w1) as (l2 & Ht2 & Hs2 & Hw2). exists (l1 ++ l2)%list.
    rewrite Ht2, Ht1, Hs2, Hs1, replay_app, app_assoc.
    split; [reflexivity|]. split; [reflexivity|].
    rewrite <- (Nat.add_0_r n). now apply within_app.
Qed.

Lemma journalled_ext {A : Type} (n : nat) (writable writable' : string -> bool)
    (c : M A) :
  (forall key : string, writable key = writable' key) ->
  journalled n writable c -> journalled n writable' c.
Proof.
  intros Hext Hc w. destruct (Hc w) as (l & Ht & Hs & Hn & Hw).
  exists l. split; [exact Ht|]. split; [exact Hs|]. split; [exact Hn|].
  rewrite <- Hw. clear - Hext. induction l as [|e l IH]; [reflexivity|].
  cbn [forallb]. rewrite IH. f_equal.
  destruct e; cbn; auto.
Qed.

Create HintDb journal discriminated.
#[local] Hint Resolve journalled_ret journalled_throw journalled_of_option
  journalled_kv_get journalled_global_fetch journalled_generateRandomString
  is_marker_key_marker : journal.

(** One step through the text of a handler. *)
Ltac journal_step :=
  match goal with
  | |- journalled _ _ (ret _) => apply journalled_ret
  | |- journalled _ _ (Response_new _ _ _) => apply journalled_Response_new
  | |- journalled _ _ throw => apply journalled_throw
  | |- journalled _ _ (of_option _) => apply journalled_of_option
  | |- journalled _ _ (kv_get _) => apply journalled_kv_get
  | |- journalled _ _ (kv_put _ _ _) =>
      apply journalled_kv_put; cbn; auto with journal
  | |- journalled _ _ (kv_delete _) =>
      apply journalled_kv_delete; cbn; auto with journal
  | |- journalled _ _ (global_fetch _) => apply journalled_global_fetch
  | |- journalled _ _ (generateRandomString _) =>
      apply journalled_generateRandomString
  | |- journalled _ _ (bind (global_fetch _) _) =>
      apply journalled_call_then; [|intros ?]
  | |- journalled _ _ (bind _ _) => apply journalled_then; [|intros ?]
  | |- journalled _ _ (try_catch _ _) => apply journalled_try_catch
  | |- journalled _ _ (if ?b then _ else _) => destruct b
  | |- journalled _ _ (match ?x with _ => _ end) => destruct x
  end.

Ltac journal := repeat journal_step.

Lemma journalled_getStoredCredentials (n : nat) (writable : string -> bool) :
  journalled n writable getStoredCredentials.
Proof. unfold getStoredCredentials, parse_stored. journal. Qed.

Lemma journalled_getStoredTokens (n : nat) (writable : string -> bool) :
  journalled n writable getStoredTokens.
Proof. unfold getStoredTokens, parse_stored. journal. Qed.

Lemma journalled_exchange (writable : string -> bool)
    (code callbackOrigin : string) :
  journalled 1 writable (exchangeCodeForTokens code callbackOrigin).
Proof.
  unfold exchangeCodeForTokens.
  apply journalled_then; [apply journalled_getStoredCredentials | intros c].
  journal.
Qed.

Lemma journalled_handleRoot (request : Request) :
  journalled 0 (fun _ => false) (handleRoot request).
Proof.
  unfold handleRoot.
  apply journalled_then; [apply journalled_getStoredCredentials | intros c].
  apply journalled_then; [apply journalled_getStoredTokens | intros t].
  journal.
Qed.

Lemma journalled_handleHealth (request : Request) :
  journalled 0 (fun _ => false) (handleHealth request).
Proof.
  unfold handleHealth.
  apply journalled_then; [apply journalled_getStoredCredentials | intros c].
  apply journalled_then; [apply journalled_getStoredTokens | intros t].
  journal.
Qed.

Lemma journalled_handleNowPlaying (request : Request) :
  journalled 1 (fun _ => false) (handleNowPlaying request).
Proof.
  unfold handleNowPlaying, callSpotifyAPI.
  apply journalled_then; [apply journalled_getStoredTokens | intros t].
  journal.
Qed.

Lemma journalled_handleRecent (request : Request) :
  journalled 1 (fun _ => false) (handleRecent request).
Proof.
  unfold handleRecent, callSpotifyAPI.
  apply journalled_then; [apply journalled_getStoredTokens | intros t].
  journal.
Qed.

Lemma journalled_handleSetup (request : Request) :
  journalled 0 is_marker_key (handleSetup request).
Proof.
  unfold handleSetup.
  apply journalled_then; [apply journalled_getStoredCredentials | intros c].
  journal.
Qed.

Lemma journalled_handleCredentials (request : Request) :
  journalled 0 (fun key => String.eqb key "spotify_credentials")
    (handleCredentials request).
Proof. unfold handleCredentials. journal. Qed.

Lemma journalled_handleCallback (request : Request) :
  journalled 1
    (fun key => String.eqb key "spotify_tokens" || is_marker_key key)
    (handleCallback request).
Proof.
  unfold handleCallback.
  destruct (if_truthy (params_get (searchParams request) "error"));
    [journal|].
  destruct (if_truthy (params_get (searchParams request) "code"));
    [|journal].
  destruct (if_truthy (params_get (searchParams request) "state"));
    [|journal].
  apply journalled_then; [journal | intros stored].
  destruct (if_truthy stored); [|journal].
  apply journalled_call_then; [apply journalled_exchange | intros result].
  destruct result; [journal|].
  apply journalled_then; [journal | intros _].
  apply journalled_then; [|intros _; journal].
  apply journalled_kv_delete. rewrite is_marker_key_marker. apply orb_true_r.
Qed.

Lemma journalled_fetch (request : Request) :
  journalled (route_calls (pathname request))
    (route_writes (pathname request)) (fetch request).
Proof.
  unfold fetch.
  destruct (String.eqb (method request) "OPTIONS"); [journal|].
  repeat (match goal with
          | |- context [String.eqb (pathname request) ?p] =>
              destruct (String.eqb_spec (pathname request) p) as [->|_]
          end);
    try (apply journalled_ret).
  - apply journalled_handleRoot.
  - apply journalled_handleSetup.
  - apply journalled_handleCredentials.
  - apply journalled_handleCallback.
  - apply journalled_handleNowPlaying.
  - apply journalled_handleRecent.
  - apply journalled_handleHealth.
Qed.

(** X14. Whatever the request and whatever the outcome (an answer or a
    rejection), the namespace changes only at keys of the route taken: the
    setup route writes state markers only, the credentials route the
    Credentials key only, the callback the Tokens key and state markers
    only, and every other route (the landing page, the data routes, the
    health report, a preflight, an unknown path) writes nothing. *)
Theorem fetch_writes_within_route
    (request : Request) (w : world) (key : string) :
  route_writes (pathname request) key = false ->
  kv (snd (fetch request w)) !! key = kv w !! key.
Proof.
  intros Hkey.
  destruct (journalled_fetch request w) as (l & _ & -> & _ & Hwrites).
  now apply replay_frame with (route_writes (pathname request)).
Qed.

(** X15. A request makes at most one upstream call, on any path and
    whatever the outcome, and none at all outside the callback and the two
    data routes. *)
Theorem fetch_calls_upstream_at_most_once (request : Request) (w : world) :
  (count is_fetch (events_since w (snd (fetch request w)))
   <= route_calls (pathname request))%nat
  /\ (route_calls (pathname request) <= 1)%nat
  /\ (route_calls (pathname request) = 1%nat ->
      In (pathname request) ["/callback"; "/now-playing"; "/recent"]).
Proof.
  destruct (journalled_fetch request w) as (l & Htrace & _ & Hcalls & _).
  rewrite (events_since_app _ _ _ Htrace). split; [exact Hcalls|].
  unfold route_calls.
  destruct (String.eqb_spec (pathname request) "/callback") as [->|_];
    [cbn; auto|].
  destruct (String.eqb_spec (pathname request) "/now-playing") as [->|_];
    [cbn; auto|].
  destruct (String.eqb_spec (pathname request) "/recent") as [->|_];
    [cbn; auto 6|].
  split; [lia | discriminate].
Qed.

(** *** What an answer can be *)

(** Every value [c] can be fulfilled with satisfies [Q]. *)
Definition answers {A : Type} (Q : A -> Prop) (c : M A) : Prop :=
  forall (w : world) (a : A) (w' : world), c w = (Fulfilled a, w') -> Q a.

Lemma answers_ret {A : Type} (Q : A -> Prop) (a : A) :
  Q a -> answers Q (ret a).
Proof. intros Ha w a' w' [= <- _]. exact Ha. Qed.

Lemma answers_Response_new (Q : Response -> Prop) (b : body) (st : Z)
    (hs : list (string * string)) :
  (Response_init_ok b st = true -> Q (new_Response b st hs)) ->
  answers Q (Response_new b st hs).
Proof.
  intros HQ w a w'. unfold Response_new.
  destruct (Response_init_ok b st); [|discriminate].
  intros [= <- _]. now apply HQ.
Qed.

Lemma answers_then {A B : Type} (Q : B -> Prop) (c : M A) (k : A -> M B) :
  (forall (a : A) (w w1 : world),
      c w = (Fulfilled a, w1) -> answers Q (k a)) ->
  answers Q (bind c k).
Proof.
  intros Hk w b w'. unfold bind.
  destruct (c w) as [[a|] w1] eqn:Hc; [|discriminate].
  intros Hrun. exact (Hk a w w1 Hc w1 b w' Hrun).
Qed.

Lemma answers_try_catch {A : Type} (Q : A -> Prop) (body handler : M A) :
  answers Q body -> answers Q handler -> answers Q (try_catch body handler).
Proof.
  intros Hb Hh w a w'. unfold try_catch.
  destruct (body w) as [[a1|] w1] eqn:Hrun.
  - intros [= <- <-]. exact (Hb w a1 w1 Hrun).
  - apply Hh.
Qed.

Lemma global_fetch_inv (req : upstream_request) (w w1 : world)
    (r : upstream_response) :
  global_fetch req w = (Fulfilled r, w1) -> upstream req = Some r.
Proof.
  unfold global_fetch. destruct (upstream req); [|discriminate].
  now intros [= <- _].
Qed.

Ltac answers_step :=
  match goal with
  | |- answers _ (ret _) => apply answers_ret
  | |- answers _ (Response_new _ _ _) =>
      apply answers_Response_new; intros ?
  | |- answers _ (bind _ _) => apply answers_then; intros ? ? ? ?
  | |- answers _ (try_catch _ _) => apply answers_try_catch
  | |- answers _ (if ?b then _ else _) => destruct b eqn:?
  | |- answers _ (match ?x with _ => _ end) => destruct x eqn:?
  end.

Ltac answers_all := repeat answers_step.

(** The response carries each of the three cross-origin headers. *)
Definition carries_cors (response : Response) : Prop :=
  forall h : string * string, In h corsHeaders -> In h (headers response).

(** A response outside the cross-origin rule: a redirect, which has the
    [Location] header only, or a 400 of the callback, which has only the
    content type that the constructor gives a string body. *)
Definition bare_answer (path : string) (response : Response) : Prop :=
  (status response = 302
   /\ exists url : string, headers response = [("Location", url)])
  \/ (path = "/callback" /\ status response = 400
      /\ headers response = [("content-type", "text/plain;charset=UTF-8")]).

Lemma headers_kept (b : body) (st : Z) (hs : list (string * string))
    (h : string * string) :
  In h hs -> In h (headers (new_Response b st hs)).
Proof.
  intros Hin. unfold new_Response. cbn [headers].
  destruct b; [exact Hin | |];
    (destruct (has_header hs "content-type");
     [exact Hin | apply in_or_app; now left]).
Qed.

Lemma carries_cors_after (h : string * string)
    (b : body) (st : Z) :
  carries_cors (new_Response b st (h :: corsHeaders)).
Proof. intros h' Hin. apply headers_kept. now right. Qed.

Lemma carries_cors_plain (b : body) (st : Z) :
  carries_cors (new_Response b st corsHeaders).
Proof. intros h' Hin. now apply headers_kept. Qed.

#[local] Hint Resolve carries_cors_after carries_cors_plain : journal.

(** X16. An answer of the worker carries the three cross-origin headers,
    unless it is a redirect (302, of the setup and credentials routes),
    whose only header is [Location], or one of the 400 answers of the
    callback, whose only header is the content type of a string body. *)
Theorem answers_carry_cors_except
    (request : Request) (w w' : world) (response : Response) :
  fetch request w = (Fulfilled response, w') ->
  carries_cors response \/ bare_answer (pathname request) response.
Proof.
  revert w response w'.
  change (answers
            (fun response =>
               carries_cors response
               \/ bare_answer (pathname request) response)
            (fetch request)).
  unfold fetch.
  destruct (String.eqb (method request) "OPTIONS");
    [answers_all; left; apply carries_cors_plain|].
  repeat (match goal with
          | |- context [String.eqb (pathname request) ?p] =>
              destruct (String.eqb_spec (pathname request) p) as [Hpath|_]
          end);
    [ unfold handleRoot | unfold handleSetup | unfold handleCredentials
    | unfold handleCallback | unfold handleNowPlaying, no_tokens_response
    | unfold handleRecent, no_tokens_response | unfold handleHealth
    | ];
    answers_all;
    first
      [ solve [left; unfold html_headers, json_headers; auto with journal]
      | solve [right; left; split; [reflexivity | eexists; reflexivity]]
      | solve [right; right; split; [exact Hpath | split; reflexivity]] ].
Qed.

(** X17. The status of an answer is 200, 302, 400, 401, 404 or 500, or it
    is the status of an upstream answer outside 200..299 that a data route
    passes on; a 500 comes from the credentials route only, a 401 from the
    data routes only. *)
Theorem answer_statuses
    (request : Request) (w w' : world) (response : Response) :
  fetch request w = (Fulfilled response, w') ->
  (In (status response) [200; 302; 400; 401; 404; 500]
   \/ exists (req : upstream_request) (r : upstream_response),
        upstream req = Some r /\ rs_ok r = false
        /\ status response = rs_status r
        /\ In (pathname request) ["/now-playing"; "/recent"])
  /\ (status response = 500 ->
      pathname request = "/credentials"
      \/ In (pathname request) ["/now-playing"; "/recent"])
  /\ (status response = 401 ->
      In (pathname request) ["/now-playing"; "/recent"]).
Proof.
  revert w response w'.
  change (answers
            (fun response =>
               (In (status response) [200; 302; 400; 401; 404; 500]
                \/ exists (req : upstream_request) (r : upstream_response),
                     upstream req = Some r /\ rs_ok r = false
                     /\ status response = rs_status r
                     /\ In (pathname request) ["/now-playing"; "/recent"])
               /\ (status response = 500 ->
                   pathname request = "/credentials"
                   \/ In (pathname request) ["/now-playing"; "/recent"])
               /\ (status response = 401 ->
                   In (pathname request) ["/now-playing"; "/recent"]))
            (fetch request)).
  unfold fetch.
  destruct (String.eqb (method request) "OPTIONS");
    [answers_all; cbn; intuition discriminate|].
  repeat (match goal with
          | |- context [String.eqb (pathname request) ?p] =>
              destruct (String.eqb_spec (pathname request) p) as [Hpath|_]
          end);
    [ unfold handleRoot | unfold handleSetup | unfold handleCredentials
    | unfold handleCallback
    | unfold handleNowPlaying, no_tokens_response, callSpotifyAPI
    | unfold handleRecent, no_tokens_response, callSpotifyAPI
    | unfold handleHealth
    | ];
    answers_all;
    try (rewrite Hpath);
    try solve [cbn; intuition discriminate];
    match goal with
    | H : global_fetch ?req _ = (Fulfilled ?r, _),
      Hok : negb (rs_ok ?r) = true |- _ =>
        apply global_fetch_inv in H; apply negb_true_iff in Hok;
        split; [right; exists req, r; cbn; auto 8 | cbn; auto 8]
    end.
Qed.

(** *** Runs used across requests *)

(** The world a granted callback leaves. *)
Definition after_grant (request : Request) (w : world)
    (code state basic : string) (data : json) : world :=
  {| kv := delete (marker_key state)
             (kv_insert now (kv w) "spotify_tokens" (JSON_stringify data 0)
                (Some 3600));
     draws := draws w;
     trace :=
       (trace w ++
        [ EvKvGet (marker_key state); EvKvGet "spotify_credentials";
          EvFetch (token_request basic code (origin request +:+ "/callback"));
          EvKvPut "spotify_tokens" (JSON_stringify data 0) (Some 3600);
          EvKvDelete (marker_key state) ])%list |}.

Lemma handleCallback_granted_run
    (request : Request) (w : world) (code state marker basic : string)
    (credentials data : json) (r : upstream_response) :
  if_truthy (params_get (searchParams request) "error") = None ->
  if_truthy (params_get (searchParams request) "code") = Some code ->
  if_truthy (params_get (searchParams request) "state") = Some state ->
  if_truthy (kv_lookup now (kv w) (marker_key state)) = Some marker ->
  stored_value "spotify_credentials" w = Some credentials ->
  truthy credentials = true ->
  btoa (basic_payload credentials) = Some basic ->
  upstream (token_request basic code (origin request +:+ "/callback"))
  = Some r ->
  rs_ok r = true ->
  JSON_parse (rs_body r) = Some data ->
  handleCallback request w
  = (Fulfilled (new_Response (BodyPage OAuthSuccessPage) 200 html_headers),
     after_grant request w code state basic data).
Proof.
  intros Herr Hcode Hstate Hmarker Hcreds Htruthy Hbtoa Hup Hok Hdata.
  unfold handleCallback. rewrite Herr, Hcode, Hstate.
  unfold bind at 1. unfold kv_get. rewrite Hmarker.
  pose proof (getStoredCredentials_run
                (log (EvKvGet (marker_key state)) w) credentials Hcreds)
    as Hget.
  unfold exchangeCodeForTokens.
  unfold bind at 1. rewrite (bind_run _ _ _ _ _ Hget). rewrite Htruthy.
  cbn [negb]. rewrite Hbtoa. unfold of_option.
  unfold bind, ret, global_fetch, kv_put, kv_delete.
  rewrite Hup, Hok. cbn [negb]. rewrite Hdata.
  unfold after_grant, log. cbn [kv trace draws].
  now rewrite <- !app_assoc.
Qed.

Lemma handleCallback_dead_marker_run
    (request : Request) (w : world) (code state : string) :
  if_truthy (params_get (searchParams request) "error") = None ->
  if_truthy (params_get (searchParams request) "code") = Some code ->
  if_truthy (params_get (searchParams request) "state") = Some state ->
  kv_lookup now (kv w) (marker_key state) = None ->
  handleCallback request w
  = (Fulfilled
       (new_Response (BodyText "Invalid or expired state parameter") 400 []),
     log (EvKvGet (marker_key state)) w).
Proof.
  intros Herr Hcode Hstate Hnone. unfold handleCallback.
  rewrite Herr, Hcode, Hstate. unfold bind, kv_get. now rewrite Hnone.
Qed.

Lemma handleSetup_post_run
    (request : Request) (w : world) (credentials : json) :
  (forall i : nat, (Math_random_floor 62 i < 62)%nat) ->
  method request = "POST" ->
  stored_value "spotify_credentials" w = Some credentials ->
  truthy credentials = true ->
  exists state : string,
    handleSetup request w
    = (Fulfilled
         (Response_redirect
            (authorize_url (template (get_prop credentials "client_id"))
               (origin request) state)
            302),
       {| kv := kv_insert now (kv w) (marker_key state) "pending" (Some 600);
          draws := (draws w + 16)%nat;
          trace :=
            (trace w ++
             [ EvKvGet "spotify_credentials";
               EvKvPut (marker_key state) "pending" (Some 600) ])%list |})
    /\ String.length state = 16%nat
    /\ all_chars is_alnum state = true.
Proof.
  intros Hrange Hmethod Hcreds Htruthy. unfold handleSetup.
  rewrite (bind_run _ _ _ _ _ (getStoredCredentials_run w credentials Hcreds)).
  rewrite Htruthy, Hmethod. cbn [negb String.eqb Ascii.eqb Bool.eqb andb].
  unfold generateRandomString.
  destruct (generateRandomString_loop_run 16 Hrange EmptyString
              (log (EvKvGet "spotify_credentials") w))
    as (state & Hrun & Hlen & Hall).
  change (EmptyString +:+ state) with state in Hrun.
  rewrite (bind_run _ _ _ _ _ Hrun).
  unfold bind, kv_put, ret, log. cbn [kv draws trace].
  exists state. split; [|split; assumption].
  now rewrite <- app_assoc.
Qed.

Lemma nonempty_of_length (s : string) (n : nat) :
  String.length s = S n -> nonempty s = true.
Proof. now destruct s. Qed.

End Worker.

(** ** Across requests

    A request made at time [t] and a later one at time [t'], on the same
    platform. *)
Section Lifecycle.

Variable t t' : Z.
Variable Date_toISOString : Z -> string.
Variable JSON_parse : string -> option json.
Variable JSON_stringify : json -> nat -> string.
Variable btoa : string -> option string.
Variable encodeURIComponent : string -> string.
Variable upstream : upstream_request -> option upstream_response.
Variable Math_random_floor : nat -> nat -> nat.

(** X18. A state marker is single use: once a callback has been granted,
    the same callback made again, at any time, is answered 400 for an
    invalid or expired state after one read of the marker key, and the
    Tokens record of the first callback is not overwritten. *)
Theorem callback_replay_rejected
    (request : Request) (w : world) (code state marker basic : string)
    (credentials data : json) (r : upstream_response) :
  if_truthy (params_get (searchParams request) "error") = None ->
  if_truthy (params_get (searchParams request) "code") = Some code ->
  if_truthy (params_get (searchParams request) "state") = Some state ->
  if_truthy (kv_lookup t (kv w) (marker_key state)) = Some marker ->
  stored_value t JSON_parse "spotify_credentials" w = Some credentials ->
  truthy credentials = true ->
  btoa (basic_payload credentials) = Some basic ->
  upstream (token_request basic code (origin request +:+ "/callback"))
  = Some r ->
  rs_ok r = true ->
  JSON_parse (rs_body r) = Some data ->
  exists w1 : world,
    handleCallback t JSON_parse JSON_stringify btoa upstream request w
    = (Fulfilled (new_Response (BodyPage OAuthSuccessPage) 200 html_headers),
       w1)
    /\ handleCallback t' JSON_parse JSON_stringify btoa upstream request w1
       = (Fulfilled
            (new_Response (BodyText "Invalid or expired state parameter")
               400 []),
          log (EvKvGet (marker_key state)) w1)
    /\ kv w1 !! "spotify_tokens"
       = Some {| kv_value := JSON_stringify data 0;
                 kv_expiration := Some (t + 3600) |}.
Proof.
  intros Herr Hcode Hstate Hmarker Hcreds Htruthy Hbtoa Hup Hok Hdata.
  exists (after_grant t JSON_stringify request w code state basic data).
  split.
  { now apply handleCallback_granted_run with marker credentials r. }
  split.
  - apply handleCallback_dead_marker_run with code; try assumption.
    unfold kv_lookup, after_grant. cbn [kv]. now rewrite lookup_delete_eq.
  - unfold after_grant. cbn [kv].
    rewrite lookup_delete_ne by apply marker_key_not_tokens.
    unfold kv_insert. now rewrite lookup_insert_eq.
Qed.

(** X19. The state marker that a setup POST puts at time [t] is readable
    by a callback strictly before [t + 600] and not from then on: a callback
    that names it at [t + 600] or later is answered 400 and writes
    nothing. *)
Theorem state_marker_lives_600_seconds
    (request callback : Request) (w : world) (credentials : json)
    (code : string) :
  (forall i : nat, (Math_random_floor 62 i < 62)%nat) ->
  method request = "POST" ->
  stored_value t JSON_parse "spotify_credentials" w = Some credentials ->
  truthy credentials = true ->
  if_truthy (params_get (searchParams callback) "error") = None ->
  if_truthy (params_get (searchParams callback) "code") = Some code ->
  exists (state : string) (w1 : world),
    handleSetup t JSON_parse encodeURIComponent Math_random_floor request w
    = (Fulfilled
         (Response_redirect
            (authorize_url encodeURIComponent
               (template (get_prop credentials "client_id"))
               (origin request) state)
            302), w1)
    /\ (t' < t + 600 ->
        if_truthy (kv_lookup t' (kv w1) (marker_key state)) = Some "pending")
    /\ (t + 600 <= t' ->
        params_get (searchParams callback) "state" = Some state ->
        handleCallback t' JSON_parse JSON_stringify btoa upstream callback w1
        = (Fulfilled
             (new_Response (BodyText "Invalid or expired state parameter")
                400 []),
           log (EvKvGet (marker_key state)) w1)).
Proof.
  intros Hrange Hmethod Hcreds Htruthy Herr Hcode.
  destruct (handleSetup_post_run t JSON_parse encodeURIComponent
              Math_random_floor request w credentials
              Hrange Hmethod Hcreds Htruthy)
    as (state & Hrun & Hlen & _).
  eexists state, _. split; [exact Hrun|].
  assert (forall later : Z,
             kv_lookup later
               (kv_insert t (kv w) (marker_key state) "pending" (Some 600))
               (marker_key state)
             = if t + 600 <=? later then None else Some "pending") as Hlook.
  { intros later. unfold kv_lookup, kv_insert.
    now rewrite lookup_insert_eq. }
  cbn [kv]. split.
  - intros Hlive. rewrite Hlook.
    destruct (Z.leb_spec (t + 600) t'); [lia | reflexivity].
  - intros Hdead Hstate.
    apply handleCallback_dead_marker_run with code; try assumption.
    + rewrite Hstate. unfold if_truthy.
      now rewrite (nonempty_of_length state 15 Hlen).
    + cbn [kv]. rewrite Hlook.
      destruct (Z.leb_spec (t + 600) t'); [reflexivity | lia].
Qed.

(** X20. The Tokens record that a granted callback puts at time [t] is
    read back strictly before [t + 3600] and is gone from then on: both data
    routes then answer 401 as if the account had never been connected,
    without calling the upstream. *)
Theorem tokens_live_3600_seconds
    (request later : Request) (w : world) (code state marker basic : string)
    (credentials data : json) (r : upstream_response) :
  if_truthy (params_get (searchParams request) "error") = None ->
  if_truthy (params_get (searchParams request) "code") = Some code ->
  if_truthy (params_get (searchParams request) "state") = Some state ->
  if_truthy (kv_lookup t (kv w) (marker_key state)) = Some marker ->
  stored_value t JSON_parse "spotify_credentials" w = Some credentials ->
  truthy credentials = true ->
  btoa (basic_payload credentials) = Some basic ->
  upstream (token_request basic code (origin request +:+ "/callback"))
  = Some r ->
  rs_ok r = true ->
  JSON_parse (rs_body r) = Some data ->
  exists w1 : world,
    handleCallback t JSON_parse JSON_stringify btoa upstream request w
    = (Fulfilled (new_Response (BodyPage OAuthSuccessPage) 200 html_headers),
       w1)
    /\ (t' < t + 3600 ->
        kv_lookup t' (kv w1) "spotify_tokens" = Some (JSON_stringify data 0))
    /\ (t + 3600 <= t' ->
        handleNowPlaying t' JSON_parse JSON_stringify upstream later w1
        = (Fulfilled (no_tokens_response JSON_stringify),
           log (EvKvGet "spotify_tokens") w1)
        /\ handleRecent t' JSON_parse JSON_stringify upstream later w1
           = (Fulfilled (no_tokens_response JSON_stringify),
              log (EvKvGet "spotify_tokens") w1)).
Proof.
  intros Herr Hcode Hstate Hmarker Hcreds Htruthy Hbtoa Hup Hok Hdata.
  exists (after_grant t JSON_stringify request w code state basic data).
  split.
  { now apply handleCallback_granted_run with marker credentials r. }
  assert (forall at_time : Z,
             kv_lookup at_time
               (kv (after_grant t JSON_stringify request w code state basic
                      data)) "spotify_tokens"
             = if t + 3600 <=? at_time then None
               else Some (JSON_stringify data 0)) as Hlook.
  { intros at_time. unfold kv_lookup, after_grant. cbn [kv].
    rewrite lookup_delete_ne by apply marker_key_not_tokens.
    unfold kv_insert. now rewrite lookup_insert_eq. }
  split.
  - intros Hlive. rewrite Hlook.
    destruct (Z.leb_spec (t + 3600) t'); [lia | reflexivity].
  - intros Hdead.
    assert (kv_lookup t'
              (kv (after_grant t JSON_stringify request w code state basic
                     data)) "spotify_tokens" = None) as Hnone.
    { rewrite Hlook. destruct (Z.leb_spec (t + 3600) t'); [reflexivity | lia]. }
    pose proof (getStoredTokens_run t' JSON_parse _ JNull
                  (stored_value_absent t' JSON_parse _ _ Hnone)) as Hget.
    split.
    + unfold handleNowPlaying. now rewrite (bind_run _ _ _ _ _ Hget).
    + unfold handleRecent. now rewrite (bind_run _ _ _ _ _ Hget).
Qed.

(** X21. Submission and initiation compose: provided the platform parses
    back the record it serialized, a POST to the setup route after an
    accepted submission redirects to the authorization URL of the submitted
    client identifier. *)
Theorem submitted_client_id_reaches_authorize_url
    (submission setup : Request) (w : world) (form : list (string * string))
    (clientId clientSecret : string) :
  method submission = "POST" ->
  formData submission = Some form ->
  if_truthy (params_get form "client_id") = Some clientId ->
  if_truthy (params_get form "client_secret") = Some clientSecret ->
  (30 <= String.length clientId)%nat ->
  all_chars is_alnum clientId = true ->
  nonempty
    (JSON_stringify
       (credentials_record t Date_toISOString clientId clientSecret) 0)
  = true ->
  JSON_parse
    (JSON_stringify
       (credentials_record t Date_toISOString clientId clientSecret) 0)
  = Some (credentials_record t Date_toISOString clientId clientSecret) ->
  (forall i : nat, (Math_random_floor 62 i < 62)%nat) ->
  method setup = "POST" ->
  exists (w1 w2 : world) (state : string),
    handleCredentials t Date_toISOString JSON_stringify submission w
    = (Fulfilled (Response_redirect (origin submission +:+ "/setup") 302), w1)
    /\ handleSetup t' JSON_parse encodeURIComponent Math_random_floor setup w1
       = (Fulfilled
            (Response_redirect
               (authorize_url encodeURIComponent clientId (origin setup)
                  state)
               302), w2)
    /\ String.length state = 16%nat.
Proof.
  intros Hmethod Hform Hid Hsecret Hlen Hall Htext Hparse Hrange Hpost.
  set (record := credentials_record t Date_toISOString clientId clientSecret)
    in *.
  assert (nonempty clientId = true) as Hne.
  { destruct clientId; [cbn in Hlen; lia | reflexivity]. }
  assert (handleCredentials t Date_toISOString JSON_stringify submission w
          = (Fulfilled
               (Response_redirect (origin submission +:+ "/setup") 302),
             log (EvKvPut "spotify_credentials" (JSON_stringify record 0) None)
               {| kv := kv_insert t (kv w) "spotify_credentials"
                          (JSON_stringify record 0) None;
                  draws := draws w; trace := trace w |})) as Hsubmit.
  { unfold handleCredentials. rewrite Hmethod, Hform.
    cbn [String.eqb Ascii.eqb Bool.eqb andb].
    unfold try_catch, bind, of_option, ret. rewrite Hid, Hsecret.
    assert ((String.length clientId <? 30)%nat
            || negb (matches_alnum clientId) = false) as ->.
    { apply orb_false_iff. split; [now apply Nat.ltb_ge|].
      unfold matches_alnum. now rewrite Hne, Hall. }
    reflexivity. }
  rewrite Hsubmit.
  assert (stored_value t' JSON_parse "spotify_credentials"
            (log (EvKvPut "spotify_credentials" (JSON_stringify record 0) None)
               {| kv := kv_insert t (kv w) "spotify_credentials"
                          (JSON_stringify record 0) None;
                  draws := draws w; trace := trace w |})
          = Some record) as Hstored.
  { unfold stored_value, kv_lookup. cbn [kv log]. unfold kv_insert.
    rewrite lookup_insert_eq. cbn [kv_expiration kv_value fmap option_fmap
                                     option_map].
    unfold if_truthy. now rewrite Htext. }
  destruct (handleSetup_post_run t' JSON_parse encodeURIComponent
              Math_random_floor setup _ record Hrange Hpost Hstored eq_refl)
    as (state & Hrun & Hstate & _).
  eexists _, _, state. split; [reflexivity|].
  split; [exact Hrun | exact Hstate].
Qed.

End Lifecycle.

(** ** The statements on the sample deployment *)

(** On the sample namespace with nothing stored, the data routes answer 401
    without calling the upstream. *)
Lemma data_routes_without_tokens_witness :
  kv_lookup Sample.now (kv Sample.fresh) "spotify_tokens" = None
  /\ exists w' : world,
       handleNowPlaying Sample.now Sample.JSON_parse Sample.JSON_stringify
         Sample.upstream_idle (Sample.request_to "GET" "/now-playing" [] None)
         Sample.fresh
       = (Fulfilled (no_tokens_response Sample.JSON_stringify), w')
       /\ status (no_tokens_response Sample.JSON_stringify) = 401
       /\ count is_fetch (events_since Sample.fresh w') = 0%nat.
Proof.
  split; [vm_compute; reflexivity|].
  destruct (data_routes_without_tokens Sample.now Sample.JSON_parse
              Sample.JSON_stringify Sample.upstream_idle
              (Sample.request_to "GET" "/now-playing" [] None) Sample.fresh)
    as (w' & Hnow & _ & Hstatus & _ & _ & Hcount & _);
    [vm_compute; reflexivity|].
  exists w'. auto.
Defined.

(** With nothing playing upstream, the connected sample answers 200 with
    [playing] false. *)
Lemma now_playing_normalizes_204_witness :
  stored_value Sample.now Sample.JSON_parse "spotify_tokens" Sample.connected
  = Some Sample.token_payload
  /\ exists (response : Response) (w' : world),
       handleNowPlaying Sample.now Sample.JSON_parse Sample.JSON_stringify
         Sample.upstream_idle (Sample.request_to "GET" "/now-playing" [] None)
         Sample.connected
       = (Fulfilled response, w')
       /\ status response = 200
       /\ resp_body response =
          BodyText
            (Sample.JSON_stringify
               (JObj [ ("playing", JBool false);
                       ("message", JStr "No track currently playing") ])
               0).
Proof.
  split; [vm_compute; reflexivity|].
  destruct (now_playing_normalizes_204 Sample.now Sample.JSON_parse
              Sample.JSON_stringify Sample.upstream_idle
              (Sample.request_to "GET" "/now-playing" [] None)
              Sample.connected Sample.token_payload
              {| rs_status := 204; rs_statusText := "No Content";
                 rs_body := "" |})
    as (response & w' & Hrun & Hstatus & Hbody & _);
    [vm_compute; reflexivity ..|].
  exists response, w'. auto.
Defined.

(** The sample callback names a marker that lapsed at 900, before the
    sample clock's 1000: it is answered 400 and nothing is put. *)
Lemma callback_rejects_unknown_state_witness :
  kv_lookup Sample.now (kv Sample.lapsed) (marker_key Sample.state) = None
  /\ exists (response : Response) (w' : world),
       handleCallback Sample.now Sample.JSON_parse Sample.JSON_stringify
         Sample.btoa Sample.upstream_granting Sample.callback Sample.lapsed
       = (Fulfilled response, w')
       /\ status response = 400
       /\ kv w' = kv Sample.lapsed
       /\ count is_put (events_since Sample.lapsed w') = 0%nat.
Proof.
  split; [vm_compute; reflexivity|].
  destruct (callback_rejects_unknown_state Sample.now Sample.JSON_parse
              Sample.JSON_stringify Sample.btoa Sample.upstream_granting
              Sample.callback Sample.lapsed)
    as (response & w' & Hrun & Hstatus & Hkv & _ & Hcount).
  - intros state Hstate. right.
    exists {| kv_value := "pending"; kv_expiration := Some 900 |}, 900.
    assert (state = Sample.state) as ->
      by (cbn in Hstate; now injection Hstate as <-).
    split; [vm_compute; reflexivity|]. split; [reflexivity|].
    unfold Sample.now. lia.
  - exists response, w'. auto.
Defined.

(** The sample callback with a live marker and no credentials stored. *)
Lemma callback_without_credentials_witness :
  exists (response : Response) (w' : world),
    handleCallback Sample.now Sample.JSON_parse Sample.JSON_stringify
      Sample.btoa Sample.upstream_granting Sample.callback Sample.pending_only
    = (Fulfilled response, w')
    /\ status response = 400
    /\ resp_body response =
       BodyText
         ("Token exchange failed: "
          +:+ "No Spotify credentials found. Please complete setup first.")
    /\ kv w' = kv Sample.pending_only
    /\ count is_fetch (events_since Sample.pending_only w') = 0%nat.
Proof.
  destruct (callback_without_credentials Sample.now Sample.JSON_parse
              Sample.JSON_stringify Sample.btoa Sample.upstream_granting
              Sample.callback Sample.pending_only Sample.state "pending")
    as (response & w' & Hrun & Hstatus & Hkv & _ & _ & Hfetch & Hbody);
    [vm_compute; reflexivity ..|].
  destruct (Hbody eq_refl "AQBcode" eq_refl) as (Hmessage & _).
  exists response, w'. auto 6.
Defined.

(** The sample callback against an upstream that refuses the exchange. *)
Lemma callback_exchange_rejected_witness :
  exists w' : world,
    handleCallback Sample.now Sample.JSON_parse Sample.JSON_stringify
      Sample.btoa Sample.upstream_refusing Sample.callback Sample.pending
    = (Fulfilled
         (new_Response
            (BodyText
               ("Token exchange failed: "
                +:+ ("Token exchange failed: " +:+ "Bad Request")))
            400 []), w')
    /\ kv w' = kv Sample.pending
    /\ if_truthy (kv_lookup Sample.now (kv w') (marker_key Sample.state))
       = Some "pending".
Proof.
  destruct (callback_exchange_rejected Sample.now Sample.JSON_parse
              Sample.JSON_stringify Sample.btoa Sample.upstream_refusing
              Sample.callback Sample.pending "AQBcode" Sample.state "pending"
              "MDEyMzQ1Njc4OWFiY2RlZjAxMjM0NTY3ODlhYmNkZWY6czNjcmV0"
              Sample.credentials
              {| rs_status := 400; rs_statusText := "Bad Request";
                 rs_body := "" |})
    as (w' & Hrun & Hkv & _ & Hmarker & _);
    [vm_compute; reflexivity ..|].
  exists w'. auto.
Defined.

(** The sample callback against an upstream that grants the exchange: the
    payload is stored until 1000 + 3600 and the marker is gone. *)
Lemma callback_success_witness :
  exists w' : world,
    handleCallback Sample.now Sample.JSON_parse Sample.JSON_stringify
      Sample.btoa Sample.upstream_granting Sample.callback Sample.pending
    = (Fulfilled (new_Response (BodyPage OAuthSuccessPage) 200 html_headers),
       w')
    /\ kv w' !! "spotify_tokens" =
       Some {| kv_value := Sample.JSON_stringify Sample.token_payload 0;
               kv_expiration := Some (Sample.now + 3600) |}
    /\ kv w' !! marker_key Sample.state = None
    /\ count (is_get_of (marker_key Sample.state))
         (events_since Sample.pending w') = 1%nat
    /\ count (is_delete_of (marker_key Sample.state))
         (events_since Sample.pending w') = 1%nat.
Proof.
  destruct (callback_success Sample.now Sample.JSON_parse
              Sample.JSON_stringify Sample.btoa Sample.upstream_granting
              Sample.callback Sample.pending "AQBcode" Sample.state "pending"
              "MDEyMzQ1Njc4OWFiY2RlZjAxMjM0NTY3ODlhYmNkZWY6czNjcmV0"
              Sample.credentials Sample.token_payload
              {| rs_status := 200; rs_statusText := "OK";
                 rs_body := Sample.compact Sample.token_payload |})
    as (w' & Hrun & Htokens & _ & Hmarker & _ & Hget & Hdelete);
    [vm_compute; reflexivity ..|].
  exists w'. auto 6.
Defined.

(** C2 as the specification words it fails on the sample: the payload
    declares 1800 seconds and the entry written lapses 3600 seconds after
    the sample clock. *)
Lemma callback_ttl_not_declared_expiry :
  exists (response : Response) (w' : world) (e : kv_entry),
    handleCallback Sample.now Sample.JSON_parse Sample.JSON_stringify
      Sample.btoa Sample.upstream_granting Sample.callback Sample.pending
    = (Fulfilled response, w')
    /\ status response = 200
    /\ kv w' !! "spotify_tokens" = Some e
    /\ kv_value e = Sample.JSON_stringify Sample.token_payload 0
    /\ Spec.declared_expiry Sample.token_payload = Some 1800
    /\ ~ Spec.ttl_bound_to_declared_expiry Sample.now Sample.token_payload e.
Proof.
  eexists _, _, _. split; [vm_compute; reflexivity|].
  split; [reflexivity|]. split; [vm_compute; reflexivity|].
  split; [reflexivity|]. split; [reflexivity|].
  intros (seconds & Hdeclared & Hexpiration).
  vm_compute in Hdeclared. injection Hdeclared as <-.
  vm_compute in Hexpiration. discriminate.
Qed.

(** A posted form whose client identifier has six characters. *)
Lemma credentials_rejects_invalid_witness :
  exists (response : Response) (w' : world),
    handleCredentials Sample.now Sample.Date_toISOString Sample.JSON_stringify
      Sample.short_submission Sample.configured
    = (Fulfilled response, w')
    /\ status response = 400
    /\ w' = Sample.configured.
Proof.
  apply (credentials_rejects_invalid Sample.now Sample.Date_toISOString
           Sample.JSON_stringify Sample.short_submission Sample.configured
           [("client_id", "abc123"); ("client_secret", "s3cret")]);
    [reflexivity | reflexivity |].
  right. right. exists "abc123". split; [reflexivity|].
  left. cbn. lia.
Defined.

Lemma sample_draws_in_range (i : nat) :
  (Sample.Math_random_floor 62 i < 62)%nat.
Proof. unfold Sample.Math_random_floor. apply Nat.mod_upper_bound. lia. Qed.

(** A POST to the setup route of the configured sample. *)
Lemma setup_post_starts_authorization_witness :
  exists (state : string) (w' : world),
    handleSetup Sample.now Sample.JSON_parse Sample.encodeURIComponent
      Sample.Math_random_floor
      (Sample.request_to "POST" "/setup" [] None) Sample.configured
    = (Fulfilled
         {| status := 302;
            headers :=
              [ ("Location",
                 "https://accounts.spotify.com/authorize?response_type=code"
                 +:+ "&client_id=0123456789abcdef0123456789abcdef"
                 +:+ "&scope=user-read-currently-playing%20user-read-recently-played%20user-read-playback-state"
                 +:+ "&redirect_uri=https%3A%2F%2Fproxy.example.workers.dev%2Fcallback"
                 +:+ "&state=" +:+ state) ];
            resp_body := BodyNull |}, w')
    /\ (16 <= String.length state)%nat
    /\ all_chars is_alnum state = true
    /\ kv_lookup Sample.now (kv w') ("oauth_state_" +:+ state)
       = Some "pending".
Proof.
  destruct (setup_post_starts_authorization Sample.now Sample.JSON_parse
              Sample.encodeURIComponent Sample.Math_random_floor
              (Sample.request_to "POST" "/setup" [] None) Sample.configured
              Sample.credentials Sample.client_id)
    as (state & w' & Hrun & Hlen & Hall & _ & Hlookup & _);
    [exact sample_draws_in_range | reflexivity | vm_compute; reflexivity
    | reflexivity | reflexivity | cbn; intuition discriminate |].
  exists state, w'. auto.
Defined.

(** The landing page and the health report of the connected sample. *)
Lemma setup_status_classification_witness :
  exists w' : world,
    handleRoot Sample.now Sample.JSON_parse
      (Sample.request_to "GET" "/" [] None) Sample.connected
    = (Fulfilled
         (new_Response
            (BodyPage (RootPage "complete" "/now-playing" "View Now Playing"))
            200 html_headers), w')
    /\ handleHealth Sample.now Sample.Date_toISOString Sample.JSON_parse
         Sample.JSON_stringify Sample.ENVIRONMENT
         (Sample.request_to "GET" "/" [] None) Sample.connected
       = (Fulfilled
            (new_Response
               (BodyText
                  (Sample.JSON_stringify
                     (health_object Sample.now Sample.Date_toISOString
                        Sample.ENVIRONMENT true true) 2))
               200 json_headers), w').
Proof.
  destruct (setup_status_classification Sample.now Sample.Date_toISOString
              Sample.JSON_parse Sample.JSON_stringify Sample.ENVIRONMENT
              (Sample.request_to "GET" "/" [] None) Sample.connected
              Sample.credentials Sample.token_payload)
    as (_ & _ & _ & _ & _ & _ & _ & Hroot & Hhealth & _);
    [vm_compute; reflexivity ..|].
  eexists. split; [exact Hroot | exact Hhealth].
Defined.

(** ** The further properties on sample deployments *)

Module Playback.

Definition track : json :=
  JObj [ ("is_playing", JBool true);
         ("item", JObj [ ("name", JStr "Song") ]) ].

Definition history : json := JObj [ ("items", JArr []) ].

Definition JSON_parse (text : string) : option json :=
  if String.eqb text (Sample.compact track) then Some track
  else if String.eqb text (Sample.compact history) then Some history
  else Sample.JSON_parse text.






(** An upstream that cannot be reached. *)
Definition upstream_down (req : upstream_request)
  : option upstream_response := None.

(** The worker on the sample platform, in front of [upstream]. *)
Definition worker
    (upstream : upstream_request -> option upstream_response)
  : Request -> M Response :=
  fetch Sample.now Sample.Date_toISOString JSON_parse Sample.JSON_stringify
    Sample.btoa Sample.encodeURIComponent upstream Sample.Math_random_floor
    Sample.ENVIRONMENT.

Definition submission : Request :=
  Sample.request_to "POST" "/credentials" []
    (Some [("client_id", Sample.client_id); ("client_secret", "s3cret")]).

Definition basic : string :=
  "MDEyMzQ1Njc4OWFiY2RlZjAxMjM0NTY3ODlhYmNkZWY6czNjcmV0".

End Playback.

Lemma preflight_precedes_routing_witness :
  Playback.worker Playback.upstream_down
    (Sample.request_to "OPTIONS" "/no-such-route" [] None) Sample.lapsed
  = (Fulfilled (new_Response BodyNull 200 corsHeaders), Sample.lapsed).
Proof.
  apply (preflight_precedes_routing Sample.now Sample.Date_toISOString
           Playback.JSON_parse Sample.JSON_stringify Sample.btoa
           Sample.encodeURIComponent Playback.upstream_down
           Sample.Math_random_floor Sample.ENVIRONMENT
           (Sample.request_to "OPTIONS" "/no-such-route" [] None)
           Sample.lapsed).
  reflexivity.
Defined.

Lemma unknown_path_not_found_witness :
  Playback.worker Playback.upstream_down
    (Sample.request_to "GET" "/favicon.ico" [] None) Sample.connected
  = (Fulfilled (new_Response (BodyText "Not Found") 404 corsHeaders),
     Sample.connected).
Proof.
  apply (unknown_path_not_found Sample.now Sample.Date_toISOString
           Playback.JSON_parse Sample.JSON_stringify Sample.btoa
           Sample.encodeURIComponent Playback.upstream_down
           Sample.Math_random_floor Sample.ENVIRONMENT
           (Sample.request_to "GET" "/favicon.ico" [] None) Sample.connected).
  - discriminate.
  - cbn. intuition discriminate.
Defined.

Lemma setup_without_credentials_witness :
  handleSetup Sample.now Sample.JSON_parse Sample.encodeURIComponent
    Sample.Math_random_floor (Sample.request_to "POST" "/setup" [] None)
    Sample.fresh
  = (Fulfilled
       (Response_redirect "https://proxy.example.workers.dev/credentials" 302),
     log (EvKvGet "spotify_credentials") Sample.fresh).
Proof.
  apply (setup_without_credentials Sample.now Sample.JSON_parse
           Sample.encodeURIComponent Sample.Math_random_floor
           (Sample.request_to "POST" "/setup" [] None) Sample.fresh JNull);
    reflexivity.
Defined.

Lemma setup_page_has_no_side_effect_witness :
  handleSetup Sample.now Sample.JSON_parse Sample.encodeURIComponent
    Sample.Math_random_floor (Sample.request_to "GET" "/setup" [] None)
    Sample.configured
  = (Fulfilled (new_Response (BodyPage SetupPage) 200 html_headers),
     log (EvKvGet "spotify_credentials") Sample.configured).
Proof.
  apply (setup_page_has_no_side_effect Sample.now Sample.JSON_parse
           Sample.encodeURIComponent Sample.Math_random_floor
           (Sample.request_to "GET" "/setup" [] None) Sample.configured
           Sample.credentials);
    [vm_compute; reflexivity | reflexivity | discriminate].
Defined.

Lemma credentials_accepted_witness :
  exists w' : world,
    handleCredentials Sample.now Sample.Date_toISOString Sample.JSON_stringify
      Playback.submission Sample.connected
    = (Fulfilled
         (Response_redirect "https://proxy.example.workers.dev/setup" 302),
       w')
    /\ kv_lookup (Sample.now + 1000000) (kv w') "spotify_credentials"
       = Some (Sample.compact Sample.credentials)
    /\ kv w' !! "spotify_tokens" = kv Sample.connected !! "spotify_tokens".
Proof.
  destruct (credentials_accepted Sample.now Sample.Date_toISOString
              Sample.JSON_stringify Playback.submission Sample.connected
              [("client_id", Sample.client_id); ("client_secret", "s3cret")]
              Sample.client_id "s3cret")
    as (w' & Hrun & _ & Hread & Hframe);
    [ reflexivity | reflexivity | reflexivity | reflexivity
    | cbn; lia | reflexivity | ].
  exists w'. split; [exact Hrun|]. split; [apply Hread|].
  apply Hframe. discriminate.
Defined.

Lemma credentials_unreadable_form_witness :
  handleCredentials Sample.now Sample.Date_toISOString Sample.JSON_stringify
    (Sample.request_to "POST" "/credentials" [] None) Sample.configured
  = (Fulfilled
       (new_Response
          (BodyPage
             (CredentialsPage
                (Some "Error processing credentials. Please try again.")
                "https://proxy.example.workers.dev"))
          500 html_headers), Sample.configured).
Proof.
  apply (credentials_unreadable_form Sample.now Sample.Date_toISOString
           Sample.JSON_stringify
           (Sample.request_to "POST" "/credentials" [] None)
           Sample.configured);
    reflexivity.
Defined.

Lemma callback_early_exit_witness :
  exists response : Response,
    handleCallback Sample.now Sample.JSON_parse Sample.JSON_stringify
      Sample.btoa Sample.upstream_granting Sample.callback_denied
      Sample.pending
    = (Fulfilled response, Sample.pending)
    /\ status response = 400
    /\ headers response = [("content-type", "text/plain;charset=UTF-8")]
    /\ resp_body response = BodyText "OAuth Error: access_denied".
Proof.
  destruct (callback_early_exit Sample.now Sample.JSON_parse
              Sample.JSON_stringify Sample.btoa Sample.upstream_granting
              Sample.callback_denied Sample.pending)
    as (response & Hrun & Hstatus & Hheaders & _ & Herror & _);
    [left; discriminate|].
  exists response. split; [exact Hrun|]. split; [exact Hstatus|].
  split; [exact Hheaders|]. now apply Herror.
Defined.





Lemma generateRandomString_length_alphabet_witness :
  exists s : string,
    generateRandomString Sample.Math_random_floor 16 Sample.fresh
    = (Fulfilled s, {| kv := ∅; draws := 16; trace := [] |})
    /\ String.length s = 16%nat.
Proof.
  destruct (generateRandomString_length_alphabet Sample.Math_random_floor 16
              Sample.fresh sample_draws_in_range)
    as (s & Hrun & Hlen & _).
  exists s. split; [exact Hrun | exact Hlen].
Defined.

Lemma callback_rejects_when_upstream_unreachable_witness :
  Playback.worker Playback.upstream_down Sample.callback Sample.pending
  = (Rejected,
     log (EvFetch (token_request Playback.basic "AQBcode"
                     "https://proxy.example.workers.dev/callback"))
       (log (EvKvGet "spotify_credentials")
          (log (EvKvGet (marker_key Sample.state)) Sample.pending))).
Proof.
  apply (callback_rejects_when_upstream_unreachable Sample.now
           Sample.Date_toISOString Playback.JSON_parse Sample.JSON_stringify
           Sample.btoa Sample.encodeURIComponent Playback.upstream_down
           Sample.Math_random_floor Sample.ENVIRONMENT Sample.callback
           Sample.pending "AQBcode" Sample.state "pending" Playback.basic
           Sample.credentials);
    try (vm_compute; reflexivity).
  discriminate.
Defined.

(** Submitting credentials again leaves the tokens of the connected sample
    in place. *)
Lemma fetch_writes_within_route_witness :
  kv (snd (Playback.worker Playback.upstream_down Playback.submission
             Sample.connected)) !! "spotify_tokens"
  = kv Sample.connected !! "spotify_tokens".
Proof.
  apply (fetch_writes_within_route Sample.now Sample.Date_toISOString
           Playback.JSON_parse Sample.JSON_stringify Sample.btoa
           Sample.encodeURIComponent Playback.upstream_down
           Sample.Math_random_floor Sample.ENVIRONMENT Playback.submission
           Sample.connected "spotify_tokens").
  reflexivity.
Defined.

Lemma answers_carry_cors_except_witness :
  carries_cors (no_tokens_response Sample.JSON_stringify)
  \/ bare_answer "/now-playing" (no_tokens_response Sample.JSON_stringify).
Proof.
  apply (answers_carry_cors_except Sample.now Sample.Date_toISOString
           Playback.JSON_parse Sample.JSON_stringify Sample.btoa
           Sample.encodeURIComponent Playback.upstream_down
           Sample.Math_random_floor Sample.ENVIRONMENT
           (Sample.request_to "GET" "/now-playing" [] None) Sample.configured
           (log (EvKvGet "spotify_tokens") Sample.configured)
           (no_tokens_response Sample.JSON_stringify)).
  vm_compute. reflexivity.
Defined.

Lemma answer_statuses_witness :
  In 401 [200; 302; 400; 401; 404; 500]
  \/ exists (req : upstream_request) (r : upstream_response),
       Playback.upstream_down req = Some r /\ rs_ok r = false
       /\ 401 = rs_status r
       /\ In "/now-playing" ["/now-playing"; "/recent"].
Proof.
  apply (answer_statuses Sample.now Sample.Date_toISOString
           Playback.JSON_parse Sample.JSON_stringify Sample.btoa
           Sample.encodeURIComponent Playback.upstream_down
           Sample.Math_random_floor Sample.ENVIRONMENT
           (Sample.request_to "GET" "/now-playing" [] None) Sample.configured
           (log (EvKvGet "spotify_tokens") Sample.configured)
           (no_tokens_response Sample.JSON_stringify)).
  vm_compute. reflexivity.
Defined.

(** The granted sample callback, made a second time five seconds later. *)
Lemma callback_replay_rejected_witness :
  exists w1 : world,
    handleCallback Sample.now Sample.JSON_parse Sample.JSON_stringify
      Sample.btoa Sample.upstream_granting Sample.callback Sample.pending
    = (Fulfilled (new_Response (BodyPage OAuthSuccessPage) 200 html_headers),
       w1)
    /\ handleCallback (Sample.now + 5) Sample.JSON_parse
         Sample.JSON_stringify Sample.btoa Sample.upstream_granting
         Sample.callback w1
       = (Fulfilled
            (new_Response (BodyText "Invalid or expired state parameter")
               400 []),
          log (EvKvGet (marker_key Sample.state)) w1).
Proof.
  destruct (callback_replay_rejected Sample.now (Sample.now + 5)
              Sample.JSON_parse Sample.JSON_stringify Sample.btoa
              Sample.upstream_granting Sample.callback Sample.pending
              "AQBcode" Sample.state "pending" Playback.basic
              Sample.credentials Sample.token_payload
              {| rs_status := 200; rs_statusText := "OK";
                 rs_body := Sample.compact Sample.token_payload |})
    as (w1 & Hfirst & Hsecond & _);
    [vm_compute; reflexivity ..|].
  exists w1. split; [exact Hfirst | exact Hsecond].
Defined.

(** The marker of the sample setup POST, named by a callback 600 seconds
    later. *)
Lemma state_marker_lives_600_seconds_witness :
  exists (state : string) (w1 : world),
    handleSetup Sample.now Sample.JSON_parse Sample.encodeURIComponent
      Sample.Math_random_floor (Sample.request_to "POST" "/setup" [] None)
      Sample.configured
    = (Fulfilled
         (Response_redirect
            (authorize_url Sample.encodeURIComponent Sample.client_id
               "https://proxy.example.workers.dev" state)
            302), w1)
    /\ state = Sample.state
    /\ handleCallback (Sample.now + 600) Sample.JSON_parse
         Sample.JSON_stringify Sample.btoa Sample.upstream_granting
         Sample.callback w1
       = (Fulfilled
            (new_Response (BodyText "Invalid or expired state parameter")
               400 []),
          log (EvKvGet (marker_key state)) w1).
Proof.
  destruct (state_marker_lives_600_seconds Sample.now (Sample.now + 600)
              Sample.JSON_parse Sample.JSON_stringify Sample.btoa
              Sample.encodeURIComponent Sample.upstream_granting
              Sample.Math_random_floor
              (Sample.request_to "POST" "/setup" [] None) Sample.callback
              Sample.configured Sample.credentials "AQBcode")
    as (state & w1 & Hrun & _ & Hdead);
    [ exact sample_draws_in_range | reflexivity | vm_compute; reflexivity
    | reflexivity | reflexivity | reflexivity | ].
  assert (state = Sample.state) as Hstate.
  { pose proof Hrun as Hcomputed. vm_compute in Hcomputed.
    injection Hcomputed as Hurl _.
    vm_compute. congruence. }
  exists state, w1. split; [exact Hrun|]. split; [exact Hstate|].
  apply Hdead; [unfold Sample.now; lia|]. now rewrite Hstate.
Defined.

(** The tokens of the granted sample callback, an hour later. *)
Lemma tokens_live_3600_seconds_witness :
  exists w1 : world,
    handleCallback Sample.now Sample.JSON_parse Sample.JSON_stringify
      Sample.btoa Sample.upstream_granting Sample.callback Sample.pending
    = (Fulfilled (new_Response (BodyPage OAuthSuccessPage) 200 html_headers),
       w1)
    /\ handleNowPlaying (Sample.now + 3600) Sample.JSON_parse
         Sample.JSON_stringify Sample.upstream_granting
         (Sample.request_to "GET" "/now-playing" [] None) w1
       = (Fulfilled (no_tokens_response Sample.JSON_stringify),
          log (EvKvGet "spotify_tokens") w1).
Proof.
  destruct (tokens_live_3600_seconds Sample.now (Sample.now + 3600)
              Sample.JSON_parse Sample.JSON_stringify Sample.btoa
              Sample.upstream_granting Sample.callback
              (Sample.request_to "GET" "/now-playing" [] None) Sample.pending
              "AQBcode" Sample.state "pending" Playback.basic
              Sample.credentials Sample.token_payload
              {| rs_status := 200; rs_statusText := "OK";
                 rs_body := Sample.compact Sample.token_payload |})
    as (w1 & Hgrant & _ & Hgone);
    [vm_compute; reflexivity ..|].
  exists w1. split; [exact Hgrant|]. apply Hgone. unfold Sample.now. lia.
Defined.

(** The sample submission on an empty namespace, then a setup POST. *)
Lemma submitted_client_id_reaches_authorize_url_witness :
  exists (w1 w2 : world) (state : string),
    handleCredentials Sample.now Sample.Date_toISOString Sample.JSON_stringify
      Playback.submission Sample.fresh
    = (Fulfilled
         (Response_redirect "https://proxy.example.workers.dev/setup" 302),
       w1)
    /\ handleSetup (Sample.now + 5) Sample.JSON_parse
         Sample.encodeURIComponent Sample.Math_random_floor
         (Sample.request_to "POST" "/setup" [] None) w1
       = (Fulfilled
            (Response_redirect
               (authorize_url Sample.encodeURIComponent Sample.client_id
                  "https://proxy.example.workers.dev" state)
               302), w2).
Proof.
  destruct (submitted_client_id_reaches_authorize_url Sample.now
              (Sample.now + 5) Sample.Date_toISOString Sample.JSON_parse
              Sample.JSON_stringify Sample.encodeURIComponent
              Sample.Math_random_floor Playback.submission
              (Sample.request_to "POST" "/setup" [] None) Sample.fresh
              [("client_id", Sample.client_id); ("client_secret", "s3cret")]
              Sample.client_id "s3cret")
    as (w1 & w2 & state & Hsubmit & Hsetup & _);
    [ reflexivity | reflexivity | reflexivity | reflexivity | cbn; lia
    | reflexivity | vm_compute; reflexivity | vm_compute; reflexivity
    | exact sample_draws_in_range | reflexivity | ].
  exists w1, w2, state. split; [exact Hsubmit | exact Hsetup].
Defined.
